(** * financialGPT: document ingestion glue, parser registry and feedback search

    A shallow embedding of
      - [src/app/api/upload-documents/route.ts]   (the upload endpoint),
      - the chunk preview endpoint               (same pipeline, dry run),
      - [lib/pdf-parsers]                        (parser registry and factory),
      - [setup-feedback-table.sql]               (the feedback table, its search
                                                  function, views and setup test),
    followed by the properties of the specification that concern them.

    Conventions.  A JavaScript string is a [string]; its characters stand for
    UTF-16 code units (the model covers the code units below 256).  A
    JavaScript number is a [number]: an integer, NaN or an infinity; the
    endpoints only ever compute with integers (lengths, counters, the result
    of parseInt), and as long as these stay below 2^53 the double arithmetic
    of the source is exact.  External services (the pdf-parse library,
    langchain's splitters, JSON.parse, the embedding API, the Supabase
    insert) are fields of a [World] record: the code under study is the
    orchestration around them. *)

From Stdlib Require Import ZArith QArith List String Ascii Bool Lia.
From Stdlib Require Import DecimalString Permutation Sorted.
Import ListNotations.

#[local] Set Warnings "-register-all".
Local Open Scope string_scope.
Local Open Scope Z_scope.

(* ================================================================== *)
(** * JavaScript values *)
(* ================================================================== *)

Module JS.

(** ** Numbers *)

Inductive number : Type :=
| Num (z : Z)
| NaN
| Infinity
| NegInfinity.

(** Truthiness of a number: 0 and NaN are falsy. *)
Definition number_truthy (n : number) : bool :=
  match n with
  | Num z => negb (z =? 0)
  | NaN => false
  | Infinity | NegInfinity => true
  end.

(** [x || d] on numbers. *)
Definition number_or (x d : number) : number :=
  if number_truthy x then x else d.

(** [x === Num 0]. *)
Definition is_zero (n : number) : bool :=
  match n with Num z => z =? 0 | _ => false end.

(** ** Strings *)

Definition code (c : ascii) : Z := Z.of_nat (nat_of_ascii c).

(** WhiteSpace and LineTerminator code units (below 256): TAB, LF, VT, FF,
    CR, SP, NBSP. *)
Definition isWhiteSpace (c : ascii) : bool :=
  let n := code c in
  (n =? 9) || (n =? 10) || (n =? 11) || (n =? 12) || (n =? 13)
  || (n =? 32) || (n =? 160).

Fixpoint trimStart (s : string) : string :=
  match s with
  | EmptyString => EmptyString
  | String c r => if isWhiteSpace c then trimStart r else s
  end.

Fixpoint trimEnd (s : string) : string :=
  match s with
  | EmptyString => EmptyString
  | String c r =>
      match trimEnd r with
      | EmptyString => if isWhiteSpace c then EmptyString else String c EmptyString
      | r' => String c r'
      end
  end.

(** [String.prototype.trim]. *)
Definition trim (s : string) : string := trimEnd (trimStart s).

(** [s.length], as an integer. *)
Definition strlen (s : string) : Z := Z.of_nat (String.length s).

(** [!text || text.trim().length === 0] for a string [text]. *)
Definition blank (text : string) : bool :=
  (strlen text =? 0) || (strlen (trim text) =? 0).

(** [xs.join(sep)] for strings. *)
Definition join (sep : string) (xs : list string) : string := String.concat sep xs.

(** Decimal rendering of an integer, as in a template literal. *)
Definition show (z : Z) : string := NilZero.string_of_int (Z.to_int z).

(** ** parseInt(string), no radix argument

    ECMA-262 19.2.5: leading white space is skipped, an optional sign is
    read, an optional 0x/0X prefix selects radix 16 (otherwise 10), then the
    longest prefix of digits is converted; no digit at all gives NaN.  The
    model returns the mathematical integer: the source's double may round a
    value beyond 2^53 (or overflow to Infinity), which never turns a
    non-zero value into zero.  -0 is [Num 0]. *)

Definition digit_val (radix : Z) (c : ascii) : option Z :=
  let n := code c in
  let v := if (48 <=? n) && (n <=? 57) then Some (n - 48)
           else if (97 <=? n) && (n <=? 122) then Some (n - 87)
           else if (65 <=? n) && (n <=? 90) then Some (n - 55)
           else None in
  match v with
  | Some d => if d <? radix then Some d else None
  | None => None
  end.

(** Value of the longest digit prefix of [s]; [acc] is [None] until a first
    digit has been read. *)
Fixpoint digits (radix : Z) (s : string) (acc : option Z) : option Z :=
  match s with
  | EmptyString => acc
  | String c r =>
      match digit_val radix c with
      | Some d =>
          digits radix r
            (Some (match acc with Some a => a * radix + d | None => d end))
      | None => acc
      end
  end.

Definition strip_sign (s : string) : Z * string :=
  match s with
  | String "-" r => (-1, r)
  | String "+" r => (1, r)
  | _ => (1, s)
  end.

Definition strip_hex_prefix (s : string) : Z * string :=
  match s with
  | String "0" (String "x" r) => (16, r)
  | String "0" (String "X" r) => (16, r)
  | _ => (10, s)
  end.

Definition parseInt (input : string) : number :=
  let (sign, s1) := strip_sign (trimStart input) in
  let (radix, s2) := strip_hex_prefix s1 in
  match digits radix s2 None with
  | None => NaN
  | Some m => Num (sign * m)
  end.

(** ** Values produced by JSON.parse, and what the endpoints build from them *)

Inductive jsval : Type :=
| JUndefined
| JNull
| JBool (b : bool)
| JNum (n : Z)
| JStr (s : string)
| JArr (elems : list jsval)
| JObj (props : list (string * jsval))
| JDate (arg : jsval).          (* new Date(arg) *)

(** An object's own enumerable properties, in order. *)
Definition obj : Type := list (string * jsval).

Definition truthy (v : jsval) : bool :=
  match v with
  | JUndefined | JNull => false
  | JBool b => b
  | JNum n => negb (n =? 0)
  | JStr s => negb (strlen s =? 0)
  | JArr _ | JObj _ | JDate _ => true
  end.

(** [a || b]. *)
Definition or (a b : jsval) : jsval := if truthy a then a else b.

(** Own property lookup. *)
Fixpoint own (k : string) (o : obj) : option jsval :=
  match o with
  | [] => None
  | (k', v) :: r => if String.eqb k k' then Some v else own k r
  end.

(** [o[k] = v] on an object under construction: an existing key keeps its
    place and takes the new value, a new key goes last (JavaScript lists
    integer-like keys first; nothing here depends on the order). *)
Fixpoint set (k : string) (v : jsval) (o : obj) : obj :=
  match o with
  | [] => [(k, v)]
  | (k', v') :: r => if String.eqb k k' then (k, v) :: r else (k', v') :: set k v r
  end.

Fixpoint indexed {A} (i : nat) (xs : list A) : list (nat * A) :=
  match xs with
  | [] => []
  | x :: r => (i, x) :: indexed (S i) r
  end.

Fixpoint chars (s : string) : list string :=
  match s with
  | EmptyString => []
  | String c r => String c EmptyString :: chars r
  end.

(** [{...v}]: the own enumerable properties of [v] (none for a primitive
    other than a string). *)
Definition spread (v : jsval) : obj :=
  match v with
  | JObj o => o
  | JArr l => map (fun p => (show (Z.of_nat (fst p)), snd p)) (indexed 0 l)
  | JStr s => map (fun p => (show (Z.of_nat (fst p)), JStr (snd p))) (indexed 0 (chars s))
  | _ => []
  end.

(** [Object.assign(o, src)]: the properties of [src] set on [o] in order. *)
Definition assign (o src : obj) : obj :=
  fold_left (fun acc kv => set (fst kv) (snd kv) acc) src o.

(** [v.k] for one of the property names the endpoints read ([title],
    [author], [topic], ...: none of them is defined on a built-in
    prototype).  Reading a property of null or undefined throws a
    TypeError: [None]. *)
Definition get (v : jsval) (k : string) : option jsval :=
  match v with
  | JUndefined | JNull => None
  | JObj o => Some (match own k o with Some x => x | None => JUndefined end)
  | _ => Some JUndefined
  end.

(** [v?.k]. *)
Definition get_opt (v : jsval) (k : string) : jsval :=
  match get v k with Some x => x | None => JUndefined end.

(** ToString, as a template literal applies it.  An array joins its
    elements with commas (null and undefined as the empty string); an
    ordinary object gives "[object Object]", unless it has an own
    [toString] property, which (not being callable) makes the conversion
    throw a TypeError: [None].  JSON.parse never returns a Date, so the
    endpoints never convert one; its clause gives the text of an
    unparseable date. *)
Fixpoint ToString (v : jsval) : option string :=
  match v with
  | JUndefined => Some "undefined"
  | JNull => Some "null"
  | JBool true => Some "true"
  | JBool false => Some "false"
  | JNum n => Some (show n)
  | JStr s => Some s
  | JArr l =>
      let elems :=
        (fix elems (l : list jsval) : option (list string) :=
           match l with
           | [] => Some []
           | x :: r =>
               match (match x with
                      | JUndefined | JNull => Some ""
                      | _ => ToString x
                      end), elems r with
               | Some s, Some ss => Some (s :: ss)
               | _, _ => None
               end
           end) in
      option_map (join ",") (elems l)
  | JObj o => match own "toString" o with
              | Some _ => None
              | None => Some "[object Object]"
              end
  | JDate _ => Some "Invalid Date"
  end.

End JS.

(* ================================================================== *)
(** * Completions: a value or a thrown exception *)
(* ================================================================== *)

(** What a [catch] clause receives: an instance of Error (TypeError and
    SyntaxError included; the code only reads its [message]), or some other
    thrown value. *)
Inductive exn : Type :=
| Err (message : string)
| Thrown (v : JS.jsval).

(** [e instanceof Error ? e.message : 'Unknown error']. *)
Definition message_of (e : exn) : string :=
  match e with
  | Err m => m
  | Thrown _ => "Unknown error"
  end.

Inductive completion (A : Type) : Type :=
| Return (a : A)
| Throw (e : exn).
Arguments Return {A} a.
Arguments Throw {A} e.

Definition Buffer : Type := list Byte.byte.

(* ================================================================== *)
(** * lib/pdf-parsers *)
(* ================================================================== *)

Module PdfParsers.
Import JS.

Record PDFParseResult : Type := {
  text : string;
  metadata : jsval;        (* { pages, title, author, creator, subject, ... } *)
  parseTime : Z;
  parserUsed : string
}.

Record PDFParserFeatures : Type := {
  extractText : bool;
  extractMetadata : bool;
  handleEncrypted : bool;
  handleImages : bool;
  preserveFormatting : bool;
  ocrCapability : bool
}.

(** [keyof PDFParserFeatures]. *)
Inductive Feature : Type :=
| ExtractText | ExtractMetadata | HandleEncrypted
| HandleImages | PreserveFormatting | OcrCapability.

(** [features[feature]]. *)
Definition feature (fs : PDFParserFeatures) (f : Feature) : bool :=
  match f with
  | ExtractText => extractText fs
  | ExtractMetadata => extractMetadata fs
  | HandleEncrypted => handleEncrypted fs
  | HandleImages => handleImages fs
  | PreserveFormatting => preserveFormatting fs
  | OcrCapability => ocrCapability fs
  end.

(** The classes implementing [PDFParser]. *)
Inductive ParserClass : Type :=
| PDFParseParser
| MockPDFParser.

Definition name (c : ParserClass) : string :=
  match c with
  | PDFParseParser => "pdf-parse"
  | MockPDFParser => "mock"
  end.

Definition description (c : ParserClass) : string :=
  match c with
  | PDFParseParser =>
      "Fast PDF text extraction using pdf-parse library. Good for standard PDFs with embedded text."
  | MockPDFParser => "Mock parser for testing purposes. Returns sample text."
  end.

Definition supportsFeatures (c : ParserClass) : PDFParserFeatures :=
  match c with
  | PDFParseParser =>
      {| extractText := true; extractMetadata := true; handleEncrypted := false;
         handleImages := false; preserveFormatting := false; ocrCapability := false |}
  | MockPDFParser =>
      {| extractText := true; extractMetadata := true; handleEncrypted := true;
         handleImages := false; preserveFormatting := false; ocrCapability := false |}
  end.

(** What the pdf-parse library resolves to. *)
Record PdfData : Type := {
  data_text : string;
  data_numpages : Z;
  data_info : jsval
}.

(** ** The registry and the factory *)

(** The own properties of [AVAILABLE_PARSERS], in insertion order. *)
Definition AVAILABLE_PARSERS : list (string * ParserClass) :=
  [("pdf-parse", PDFParseParser); ("mock", MockPDFParser)].

(** [Object.keys(AVAILABLE_PARSERS)]. *)
Definition Object_keys : list string := map fst AVAILABLE_PARSERS.

Fixpoint own_class (k : string) (o : list (string * ParserClass)) : option ParserClass :=
  match o with
  | [] => None
  | (k', c) :: r => if String.eqb k k' then Some c else own_class k r
  end.

(** [AVAILABLE_PARSERS] is an object literal, so its prototype is
    [Object.prototype]: a key that is not an own property is looked up
    there.  The methods of [Object.prototype] are functions that are not
    constructors. *)
Definition Object_prototype_methods : list string :=
  ["__defineGetter__"; "__defineSetter__"; "hasOwnProperty"; "__lookupGetter__";
   "__lookupSetter__"; "isPrototypeOf"; "propertyIsEnumerable"; "toString";
   "valueOf"; "toLocaleString"].

Inductive property : Type :=
| OwnClass (c : ParserClass)   (* a registered parser class *)
| ObjectConstructor            (* inherited [constructor]: the function Object *)
| BuiltinMethod                (* an inherited method: callable, not a constructor *)
| ObjectPrototype              (* inherited [__proto__]: Object.prototype *)
| Undefined.

(** [AVAILABLE_PARSERS[key]]. *)
Definition lookup (key : string) : property :=
  match own_class key AVAILABLE_PARSERS with
  | Some c => OwnClass c
  | None =>
      if String.eqb key "constructor" then ObjectConstructor
      else if String.eqb key "__proto__" then ObjectPrototype
      else if existsb (String.eqb key) Object_prototype_methods then BuiltinMethod
      else Undefined
  end.

(** What [new ParserClass()] evaluates to. *)
Inductive created : Type :=
| Instance (c : ParserClass)
| PlainObject.                 (* new Object(): an object without any parser method *)

Definition not_found (parserType : string) : string :=
  "Parser '" ++ parserType ++ "' not found. Available parsers: " ++ join ", " Object_keys.

(** [PDFParserFactory.create(parserType = 'pdf-parse')]; [None] is an
    omitted argument. *)
Definition create (arg : option string) : completion created :=
  let parserType := match arg with Some s => s | None => "pdf-parse" end in
  match lookup parserType with
  | Undefined => Throw (Err (not_found parserType))
  | OwnClass c => Return (Instance c)
  | ObjectConstructor => Return PlainObject
  | BuiltinMethod | ObjectPrototype => Throw (Err "ParserClass is not a constructor")
  end.

Record ParserInfo : Type := {
  info_name : string;
  info_description : string;
  features : PDFParserFeatures
}.

(** [PDFParserFactory.getAvailableParsers()]. *)
Definition getAvailableParsers : list ParserInfo :=
  map (fun e => {| info_name := fst e;
                   info_description := description (snd e);
                   features := supportsFeatures (snd e) |})
      AVAILABLE_PARSERS.

(** [Object.entries(requirements)] of a [Partial<PDFParserFeatures>]: the
    keys that are present, each with its value (an explicit undefined
    counts as false: both are falsy). *)
Definition Requirements : Type := list (Feature * bool).

(** The [every] callback of getBestParser. *)
Definition meets (p : ParserInfo) (requirements : Requirements) : bool :=
  forallb (fun e => if negb (snd e) then true else feature (features p) (fst e))
          requirements.

(** The [for] loop of getBestParser, followed by its fallback. *)
Fixpoint first_meeting (parsers : list ParserInfo) (requirements : Requirements) : string :=
  match parsers with
  | [] => "pdf-parse"
  | p :: rest => if meets p requirements then info_name p
                 else first_meeting rest requirements
  end.

(** [PDFParserFactory.getBestParser(requirements?)]. *)
Definition getBestParser (requirements : option Requirements) : string :=
  match requirements with
  | None => "pdf-parse"
  | Some r => first_meeting getAvailableParsers r
  end.

(** ** Parsing *)

Section Parse.

(** The pdf-parse library, and the milliseconds [Date.now() - startTime]
    measured around a parser's work on a buffer. *)
Variable pdf : Buffer -> completion PdfData.
Variable elapsed : Buffer -> Z.

Definition or_undefined (v : jsval) : jsval := or v JUndefined.

(** [x ? new Date(x) : undefined]. *)
Definition date_or_undefined (v : jsval) : jsval :=
  if truthy v then JDate v else JUndefined.

Definition mock_text (buffer : Buffer) : string :=
  "Mock PDF content extracted from " ++ show (Z.of_nat (List.length buffer))
  ++ " byte buffer. This is sample text that would normally come from a PDF parser. The content includes multiple paragraphs and sections to test chunking functionality.".

(** [parser.parse(buffer)]. *)
Definition parse (c : ParserClass) (buffer : Buffer) : completion PDFParseResult :=
  match c with
  | PDFParseParser =>
      match pdf buffer with
      | Return data =>
          let info := data_info data in
          Return
            {| text := if strlen (data_text data) =? 0 then "" else data_text data;
               metadata :=
                 JObj [("pages", or_undefined (JNum (data_numpages data)));
                       ("title", or_undefined (get_opt info "Title"));
                       ("author", or_undefined (get_opt info "Author"));
                       ("creator", or_undefined (get_opt info "Creator"));
                       ("subject", or_undefined (get_opt info "Subject"));
                       ("keywords", or_undefined (get_opt info "Keywords"));
                       ("creationDate", date_or_undefined (get_opt info "CreationDate"));
                       ("modificationDate", date_or_undefined (get_opt info "ModDate"))];
               parseTime := elapsed buffer;
               parserUsed := name PDFParseParser |}
      | Throw e => Throw (Err ("PDF-Parse failed: " ++ message_of e))
      end
  | MockPDFParser =>
      Return
        {| text := mock_text buffer;
           metadata :=
             JObj [("pages", JNum 1);
                   ("title", JStr "Mock PDF Document");
                   ("author", JStr "Test Author");
                   ("creator", JStr "Mock Parser")];
           parseTime := elapsed buffer;
           parserUsed := name MockPDFParser |}
  end.

Record Options : Type := {
  parser : option string;
  fallbackToMock : option bool;
  requirements : option Requirements
}.

(** The [try] block of parsePDF for a given parser name.  Calling [parse]
    on the plain object that [create] returns for "constructor" throws a
    TypeError. *)
Definition try_parse (parser : string) (buffer : Buffer) : completion PDFParseResult :=
  match create (Some parser) with
  | Return (Instance c) => parse c buffer
  | Return PlainObject => Throw (Err "pdfParser.parse is not a function")
  | Throw e => Throw e
  end.

(** [parsePDF(buffer, options?)].  The recursive call in the [catch] clause
    passes [{ parser: 'mock' }]: its fallbackToMock is false, so it is
    [try_parse "mock"], rethrowing on failure. *)
Definition parsePDF (buffer : Buffer) (options : option Options) : completion PDFParseResult :=
  let parser :=
    match options with
    | Some {| parser := Some p |} => p
    | Some {| parser := None; requirements := Some r |} => getBestParser (Some r)
    | _ => "pdf-parse"
    end in
  let fallbackToMock :=
    match options with
    | Some {| fallbackToMock := Some b |} => b
    | _ => false
    end in
  match try_parse parser buffer with
  | Return result => Return result
  | Throw e =>
      if fallbackToMock && negb (String.eqb parser "mock")
      then try_parse "mock" buffer
      else Throw e
  end.

End Parse.

End PdfParsers.

(* ================================================================== *)
(** * What both endpoints read from the request, and the outside world *)
(* ================================================================== *)

Module Form.
Import JS.

Record File : Type := {
  file_name : string;          (* file.name *)
  file_size : Z;               (* file.size *)
  file_bytes : Buffer          (* Buffer.from(await file.arrayBuffer()) *)
}.

(** The multipart form of a request, as [request.formData()] decoded it.
    [formData.get] gives null for a field that is absent: [None]. *)
Record FormData : Type := {
  files : list File;                    (* formData.getAll('files') *)
  metadata : option string;             (* formData.get('metadata') *)
  splitterType : option string;
  chunkSize : option string;
  chunkOverlap : option string;
  pdfParser : option string
}.

(** ToString of what [formData.get] returned, as [parseInt] applies it. *)
Definition as_string (field : option string) : string :=
  match field with
  | Some s => s
  | None => "null"
  end.

(** [field || dflt] for a string or null. *)
Definition string_or (field : option string) (dflt : string) : string :=
  match field with
  | Some s => if strlen s =? 0 then dflt else s
  | None => dflt
  end.

(** [!metadataStr]. *)
Definition missing (field : option string) : bool :=
  match field with
  | Some s => strlen s =? 0
  | None => true
  end.

(** [parseInt(formData.get('chunkSize') as string) || 5000]. *)
Definition chunkSize_of (form : FormData) : number :=
  number_or (parseInt (as_string (chunkSize form))) (Num 5000).

(** [parseInt(formData.get('chunkOverlap') as string) || 500]. *)
Definition chunkOverlap_of (form : FormData) : number :=
  number_or (parseInt (as_string (chunkOverlap form))) (Num 500).

Definition splitterType_of (form : FormData) : string :=
  string_or (splitterType form) "recursive".

Definition pdfParser_of (form : FormData) : string :=
  string_or (pdfParser form) "pdf-parse".

(** langchain's splitters, as the endpoints configure them. *)
Inductive TextSplitter : Type :=
| CharacterTextSplitter (chunkSize chunkOverlap : number)
| RecursiveCharacterTextSplitter (chunkSize chunkOverlap : number)
                                 (separators : option (list string)).

Definition nl : string := String "010" EmptyString.

(** The [switch (splitterType)] of both endpoints. *)
Definition textSplitter_of (form : FormData) : TextSplitter :=
  let size := chunkSize_of form in
  let overlap := chunkOverlap_of form in
  let kind := splitterType_of form in
  if String.eqb kind "character" then CharacterTextSplitter size overlap
  else if String.eqb kind "markdown" then
    RecursiveCharacterTextSplitter size overlap
      (Some [nl ++ "## "; nl ++ "### "; nl ++ "#### "; nl ++ nl; nl; " "; ""])
  else if String.eqb kind "html" then
    RecursiveCharacterTextSplitter size overlap
      (Some ["</div>"; "</p>"; "</h1>"; "</h2>"; "</h3>"; nl ++ nl; nl; " "; ""])
  else RecursiveCharacterTextSplitter size overlap None.

(** An embedding vector. *)
Definition Embedding : Type := list Q.

(** The insert payload of the upload endpoint: a row of documents_enhanced. *)
Record StoredChunkRecord : Type := {
  content : string;
  row_metadata : obj;          (* the [metadata] column *)
  embedding : Embedding;
  title : jsval;
  author : jsval;
  doc_type : jsval;
  genre : jsval;
  topic : jsval;
  difficulty : jsval;
  tags : jsval;
  source_type : string;
  summary : jsval;
  chunk_id : Z;
  total_chunks : Z;
  source : string
}.

(** Everything the endpoints call into.  The embedding service and the
    insert are asked once per chunk: their answer may differ from call to
    call, so it depends on the position of the file in the request and of
    the chunk in the file as well as on the argument. *)
Record World : Type := {
  NODE_ENV : option string;                                    (* process.env.NODE_ENV *)
  createServerSupabaseClient : option exn;                     (* what it throws, if it does *)
  pdf : Buffer -> completion PdfParsers.PdfData;               (* pdf-parse *)
  elapsed : Buffer -> Z;                                       (* parse duration, ms *)
  JSON_parse : string -> completion jsval;
  new_TextSplitter : TextSplitter -> option exn;               (* the constructor may throw *)
  splitText : TextSplitter -> string -> completion (list string);
  generateEmbedding : nat -> nat -> string -> completion Embedding;
  (** [{ error }] of the insert, null when the row was stored; or a rejection. *)
  insert : nat -> nat -> StoredChunkRecord -> completion (option string)
}.

(** [parsePDF(buffer, { parser: pdfParser,
                       fallbackToMock: process.env.NODE_ENV === 'development' })]. *)
Definition parse_file (w : World) (form : FormData) (file : File)
  : completion PdfParsers.PDFParseResult :=
  PdfParsers.parsePDF (pdf w) (elapsed w) (file_bytes file)
    (Some {| PdfParsers.parser := Some (pdfParser_of form);
             PdfParsers.fallbackToMock :=
               Some (match NODE_ENV w with
                     | Some env => String.eqb env "development"
                     | None => false
                     end);
             PdfParsers.requirements := None |}).

(** [NextResponse.json(body, { status })]; the status defaults to 200. *)
Record Response (Body : Type) : Type := {
  status : Z;
  body : Body
}.
Arguments status {Body} r.
Arguments body {Body} r.

End Form.

(* ================================================================== *)
(** * The preview endpoint *)
(* ================================================================== *)

Module Preview.
Import JS Form.

Record ChunkPreview : Type := {
  index : Z;
  content : string;
  length : Z
}.

Record ParsingInfo : Type := {
  total_parse_time : Z;
  parser_used : string;
  files_metadata : list obj
}.

Record ChunkStats : Type := {
  total_chunks : Z;
  avg_length : number;
  min_length : number;
  max_length : number;
  first_chunk : option ChunkPreview;     (* chunkPreviews[0] *)
  last_chunk : option ChunkPreview;      (* chunkPreviews[chunkPreviews.length - 1] *)
  all_chunks : list ChunkPreview;
  parsing_info : ParsingInfo
}.

(** [xs.reduce((sum, len) => sum + len, 0)]. *)
Definition sum (xs : list Z) : Z := fold_left (fun sum len => sum + len) xs 0.

(** [Math.round(s / n)] for integers [s] and [n >= 0]: the quotient rounded
    to the nearest integer, a half going up; 0/0 is NaN. *)
Definition Math_round_div (s n : Z) : number :=
  if n =? 0 then (if s =? 0 then NaN else if 0 <? s then Infinity else NegInfinity)
  else Num ((2 * s + n) / (2 * n)).

(** [Math.min(...xs)]; Infinity without arguments.  (An engine bounds the
    number of arguments of a call, some hundred thousands; the model does
    not.) *)
Fixpoint Math_min (xs : list Z) : number :=
  match xs with
  | [] => Infinity
  | x :: r => match Math_min r with
              | Num m => Num (Z.min x m)
              | _ => Num x
              end
  end.

(** [Math.max(...xs)]; -Infinity without arguments. *)
Fixpoint Math_max (xs : list Z) : number :=
  match xs with
  | [] => NegInfinity
  | x :: r => match Math_max r with
              | Num m => Num (Z.max x m)
              | _ => Num x
              end
  end.

(** [allChunks.map((chunk, index) => ({ index, content: chunk, length: chunk.length }))],
    counting from [i]. *)
Fixpoint previews_from (i : Z) (allChunks : list string) : list ChunkPreview :=
  match allChunks with
  | [] => []
  | chunk :: rest =>
      {| index := i; content := chunk; length := strlen chunk |}
      :: previews_from (i + 1) rest
  end.

(** The statistics block of the endpoint (from "Calculate statistics" to
    the [chunkStats] literal). *)
Definition chunkStats (allChunks : list string) (totalParseTime : Z)
    (pdfParser : string) (extractedMetadata : list obj) : ChunkStats :=
  let chunkLengths := map strlen allChunks in
  let totalChunks := Z.of_nat (List.length allChunks) in
  let avgLength := Math_round_div (sum chunkLengths) totalChunks in
  let minLength := Math_min chunkLengths in
  let maxLength := Math_max chunkLengths in
  let chunkPreviews := previews_from 0 allChunks in
  {| total_chunks := totalChunks;
     avg_length := avgLength;
     min_length := minLength;
     max_length := maxLength;
     first_chunk := nth_error chunkPreviews 0;
     last_chunk := nth_error chunkPreviews (List.length chunkPreviews - 1);
     all_chunks := chunkPreviews;
     parsing_info := {| total_parse_time := totalParseTime;
                        parser_used := pdfParser;
                        files_metadata := extractedMetadata |} |}.

Inductive Body : Type :=
| Success (success : bool) (chunkStats : ChunkStats)
| Failure (error : string).

(** The variables of the file loop, and the names of the files handed to
    parsePDF so far. *)
Record Loop : Type := {
  allChunks : list string;
  totalParseTime : Z;
  extractedMetadata : list obj;
  parsed : list string
}.

(** The entry pushed on [extractedMetadata]. *)
Definition file_metadata (file : File) (pdfResult : PdfParsers.PDFParseResult) : obj :=
  set "parseTime" (JNum (PdfParsers.parseTime pdfResult))
    (set "parserUsed" (JStr (PdfParsers.parserUsed pdfResult))
       (assign [("filename", JStr (file_name file))]
               (spread (PdfParsers.metadata pdfResult)))).

Definition failed_to_process (file : File) (e : exn) : string :=
  "Failed to process file " ++ file_name file ++ ": " ++ message_of e.

(** The file loop.  The [catch] clause of its body returns from the
    handler: [inr] carries that response, with the files parsed so far. *)
Fixpoint process_files (w : World) (form : FormData) (todo : list File) (st : Loop)
  : Loop + (Response Body * list string) :=
  match todo with
  | [] => inl st
  | file :: rest =>
      let parsed' := (parsed st ++ [file_name file])%list in
      match parse_file w form file with
      | Throw e =>
          inr ({| status := 400; body := Failure (failed_to_process file e) |}, parsed')
      | Return pdfResult =>
          let text := PdfParsers.text pdfResult in
          let t := PdfParsers.parseTime pdfResult in
          let st1 :=
            {| allChunks := allChunks st;
               totalParseTime := totalParseTime st + (if t =? 0 then 0 else t);
               extractedMetadata := (extractedMetadata st ++ [file_metadata file pdfResult])%list;
               parsed := parsed' |} in
          if blank text then process_files w form rest st1
          else
            match splitText w (textSplitter_of form) text with
            | Throw e =>
                inr ({| status := 400; body := Failure (failed_to_process file e) |}, parsed')
            | Return chunks =>
                process_files w form rest
                  {| allChunks := (allChunks st1 ++ chunks)%list;
                     totalParseTime := totalParseTime st1;
                     extractedMetadata := extractedMetadata st1;
                     parsed := parsed' |}
            end
      end
  end.

Definition internal_error (e : exn) : Response Body :=
  {| status := 500; body := Failure ("Internal server error: " ++ message_of e) |}.

(** [POST(request)]: the response, and the names of the files that were
    handed to parsePDF, in order. *)
Definition POST (w : World) (form : FormData) : Response Body * list string :=
  match files form with
  | [] => ({| status := 400; body := Failure "No files provided" |}, [])
  | _ :: _ =>
      (* const metadata = metadataStr ? JSON.parse(metadataStr) : {} *)
      match (if missing (metadata form) then Return (JObj [])
             else JSON_parse w (as_string (metadata form))) with
      | Throw e => (internal_error e, [])
      | Return _ =>
          match new_TextSplitter w (textSplitter_of form) with
          | Some e => (internal_error e, [])
          | None =>
              match process_files w form (files form)
                      {| allChunks := []; totalParseTime := 0;
                         extractedMetadata := []; parsed := [] |} with
              | inr early => early
              | inl st =>
                  match allChunks st with
                  | [] =>
                      ({| status := 400;
                          body := Failure "No chunks could be generated from the files" |},
                       parsed st)
                  | _ :: _ =>
                      ({| status := 200;
                          body := Success true
                                    (chunkStats (allChunks st) (totalParseTime st)
                                                (pdfParser_of form) (extractedMetadata st)) |},
                       parsed st)
                  end
              end
          end
      end
  end.

End Preview.

(* ================================================================== *)
(** * The upload endpoint *)
(* ================================================================== *)

Module Upload.
Import JS Form.

Inductive Body : Type :=
| Success (success : bool) (documentsCount chunksCount : Z) (message : string)
| Failure (error : string).

(** The counters of the handler, the rows stored in documents_enhanced so
    far, and the names of the files handed to parsePDF so far. *)
Record Loop : Type := {
  totalChunks : Z;
  documentsCount : Z;
  rows : list StoredChunkRecord;
  parsed : list string
}.

(** The template literal of the chunk loop, trimmed.  Reading
    [metadata.title] throws when [metadata] is null, and so does the
    conversion of a value that has no string form: [None]. *)
Definition contextEnhancedText (metadata : jsval) (file : File) (chunk : string)
  : option string :=
  match get metadata "title" with
  | None => None
  | Some title =>
      match ToString (or title (JStr (file_name file))),
            ToString (or (get_opt metadata "author") (JStr "Unknown")),
            ToString (or (get_opt metadata "topic") (JStr "General")) with
      | Some company, Some speaker, Some topic =>
          Some (trim (nl ++ "Company/Source: " ++ company
                      ++ nl ++ "Author/Speaker: " ++ speaker
                      ++ nl ++ "Topic: " ++ topic
                      ++ nl ++ "Content: " ++ chunk
                      ++ nl ++ "            "))
      | _, _, _ => None
      end
  end.

(** The object passed to [insert] for chunk [i] (0-based) of a file that
    gave [n] chunks. *)
Definition row_of (metadata : jsval) (file : File)
    (pdfResult : PdfParsers.PDFParseResult) (n : Z) (i : Z) (chunk : string)
    (embedding : Embedding) : StoredChunkRecord :=
  {| content := chunk;
     row_metadata :=
       set "pdf_metadata" (PdfParsers.metadata pdfResult)
         (set "parse_time" (JNum (PdfParsers.parseTime pdfResult))
            (set "parser_used" (JStr (PdfParsers.parserUsed pdfResult))
               (set "file_size" (JNum (file_size file))
                  (set "filename" (JStr (file_name file))
                     (set "total_chunks" (JNum n)
                        (set "chunk_index" (JNum i)
                           (assign [] (spread metadata))))))));
     Form.embedding := embedding;
     title := get_opt metadata "title";
     author := or (get_opt metadata "author") JNull;
     doc_type := or (get_opt metadata "doc_type") (JStr "Book");
     genre := or (get_opt metadata "genre") JNull;
     topic := or (get_opt metadata "topic") JNull;
     difficulty := or (get_opt metadata "difficulty") JNull;
     tags := or (get_opt metadata "tags") JNull;
     source_type := "pdf_upload";
     summary := or (get_opt metadata "description") JNull;
     chunk_id := i + 1;
     total_chunks := n;
     source := file_name file |}.

(** The body of the chunk loop for chunk [i] of file number [fi]: every
    exception is caught (and logged) by its [catch] clause, an [error]
    answer of the insert is logged, and only a stored row is counted. *)
Definition store_chunk (w : World) (metadata : jsval) (fi : nat) (file : File)
    (pdfResult : PdfParsers.PDFParseResult) (n : Z) (i : nat) (chunk : string)
    (st : Loop) : Loop :=
  match contextEnhancedText metadata file chunk with
  | None => st
  | Some text =>
      match generateEmbedding w fi i text with
      | Throw _ => st
      | Return embedding =>
          let row := row_of metadata file pdfResult n (Z.of_nat i) chunk embedding in
          match insert w fi i row with
          | Throw _ => st
          | Return (Some chunkError) => st
          | Return None =>
              {| totalChunks := totalChunks st + 1;
                 documentsCount := documentsCount st;
                 rows := (rows st ++ [row])%list;
                 parsed := parsed st |}
          end
      end
  end.

(** [for (let i = 0; i < chunks.length; i++)], from index [i] on; [n] is
    [chunks.length]. *)
Fixpoint store_chunks (w : World) (metadata : jsval) (fi : nat) (file : File)
    (pdfResult : PdfParsers.PDFParseResult) (n : Z) (i : nat) (chunks : list string)
    (st : Loop) : Loop :=
  match chunks with
  | [] => st
  | chunk :: rest =>
      store_chunks w metadata fi file pdfResult n (S i) rest
        (store_chunk w metadata fi file pdfResult n i chunk st)
  end.

(** The body of the file loop for file number [fi]: a failure of the
    parser or of the splitter is caught (and logged) by its [catch]
    clause; a file without text or without chunks is left with
    [continue]; after the chunk loop the document is counted. *)
Definition process_file (w : World) (form : FormData) (metadata : jsval)
    (fi : nat) (file : File) (st : Loop) : Loop :=
  let st0 := {| totalChunks := totalChunks st;
                documentsCount := documentsCount st;
                rows := rows st;
                parsed := (parsed st ++ [file_name file])%list |} in
  match parse_file w form file with
  | Throw _ => st0
  | Return pdfResult =>
      let text := PdfParsers.text pdfResult in
      if blank text then st0
      else
        match splitText w (textSplitter_of form) text with
        | Throw _ => st0
        | Return chunks =>
            match chunks with
            | [] => st0
            | _ :: _ =>
                let st1 := store_chunks w metadata fi file pdfResult
                             (Z.of_nat (List.length chunks)) 0 chunks st0 in
                {| totalChunks := totalChunks st1;
                   documentsCount := documentsCount st1 + 1;
                   rows := rows st1;
                   parsed := parsed st1 |}
            end
        end
  end.

(** [for (const file of files)], from file number [fi] on. *)
Fixpoint process_files (w : World) (form : FormData) (metadata : jsval)
    (fi : nat) (todo : list File) (st : Loop) : Loop :=
  match todo with
  | [] => st
  | file :: rest =>
      process_files w form metadata (S fi) rest (process_file w form metadata fi file st)
  end.

Definition completed (documentsCount totalChunks : Z) : string :=
  "Successfully processed " ++ show documentsCount ++ " documents with "
  ++ show totalChunks ++ " chunks".

(** What a call of the handler leaves behind. *)
Record Outcome : Type := {
  response : Response Body;
  stored : list StoredChunkRecord;      (* rows inserted into documents_enhanced *)
  parsed_files : list string            (* files handed to parsePDF, in order *)
}.

Definition reply (status : Z) (body : Body) : Outcome :=
  {| response := {| Form.status := status; Form.body := body |};
     stored := []; parsed_files := [] |}.

(** [POST(request)].  Whatever is thrown outside the file loop reaches the
    outer [catch] clause: HTTP 500. *)
Definition POST (w : World) (form : FormData) : Outcome :=
  match createServerSupabaseClient w with
  | Some _ => reply 500 (Failure "Internal server error")
  | None =>
      match files form with
      | [] => reply 400 (Failure "No files provided")
      | _ :: _ =>
          if missing (metadata form) then reply 400 (Failure "Metadata is required")
          else
            match JSON_parse w (as_string (metadata form)) with
            | Throw _ => reply 500 (Failure "Internal server error")
            | Return metadata =>
                match new_TextSplitter w (textSplitter_of form) with
                | Some _ => reply 500 (Failure "Internal server error")
                | None =>
                    let st := process_files w form metadata 0 (files form)
                                {| totalChunks := 0; documentsCount := 0;
                                   rows := []; parsed := [] |} in
                    {| response :=
                         {| status := 200;
                            body := Success true (documentsCount st) (totalChunks st)
                                      (completed (documentsCount st) (totalChunks st)) |};
                       stored := rows st;
                       parsed_files := parsed st |}
                end
            end
      end
  end.

End Upload.

(* ================================================================== *)
(** * setup-feedback-table.sql: match_feedback_by_embedding *)
(* ================================================================== *)

Module Feedback.

Definition vector : Type := list Q.

(** A row of the [feedback] table; a nullable column is an [option]. *)
Record feedback : Type := {
  id : string;
  user_query : string;
  ai_response : string;
  feedback_type : string;
  chat_id : option string;
  rating : option Z;
  comment : option string;
  query_embedding : option vector;
  created_at : Z
}.

(** A row of the function's result table. *)
Record match_row : Type := {
  m_id : string;
  m_user_query : string;
  m_ai_response : string;
  m_feedback_type : string;
  m_chat_id : option string;
  m_rating : option Z;
  m_comment : option string;
  m_created_at : Z;
  similarity : Q
}.

(** How PL/pgSQL resolves, inside an SQL statement, a name that is both a
    variable of the function and a column of a table of the statement
    (plpgsql.variable_conflict; PostgreSQL's default is [error]).  The
    function's parameter [query_embedding] has the name of a column of
    [feedback], and the statement uses that name unqualified as the right
    operand of every [<=>]. *)
Inductive variable_conflict : Type :=
| error
| use_variable
| use_column.

Inductive sql_error : Type :=
| ambiguous_column (name : string)     (* column reference is ambiguous *)
| negative_limit.                      (* LIMIT must not be negative *)

Inductive outcome : Type :=
| Rows (rows : list match_row)
| Raise (e : sql_error).

(** [TRIM(text)]: spaces are removed at both ends. *)
Fixpoint ltrim (s : string) : string :=
  match s with
  | String " " r => ltrim r
  | _ => s
  end.

Fixpoint rtrim (s : string) : string :=
  match s with
  | EmptyString => EmptyString
  | String c r =>
      match rtrim r with
      | EmptyString => if Ascii.eqb c " " then EmptyString else String c EmptyString
      | r' => String c r'
      end
  end.

Definition TRIM (s : string) : string := rtrim (ltrim s).

Definition LENGTH (s : string) : Z := Z.of_nat (String.length s).

(** SQL's three-valued [AND]; [None] is NULL. *)
Definition sql_and (a b : option bool) : option bool :=
  match a, b with
  | Some false, _ | _, Some false => Some false
  | Some true, Some true => Some true
  | _, _ => None
  end.

Definition Qgt_bool (a b : Q) : bool := negb (Qle_bool a b).

Section Search.

(** pgvector's cosine distance operator [<=>] on two vectors that are not
    NULL.  Its float results are taken as rationals. *)
Variable cosine_distance : vector -> vector -> Q.

(** What the unqualified [query_embedding] of the statement denotes for a
    row, once the name is resolved. *)
Definition right_operand (conflict : variable_conflict) (row : feedback)
    (query_embedding_param : vector) : option vector :=
  match conflict with
  | use_column => query_embedding row
  | _ => Some query_embedding_param
  end.

(** [feedback.query_embedding <=> query_embedding]; NULL when an operand is. *)
Definition distance (conflict : variable_conflict) (query_embedding_param : vector)
    (row : feedback) : option Q :=
  match query_embedding row, right_operand conflict row query_embedding_param with
  | Some a, Some b => Some (cosine_distance a b)
  | _, _ => None
  end.

(** The [WHERE] clause. *)
Definition where_clause (conflict : variable_conflict) (query_embedding_param : vector)
    (match_threshold : Q) (row : feedback) : option bool :=
  sql_and
    (sql_and
       (option_map (fun d => Qgt_bool (1 - d) match_threshold)
                   (distance conflict query_embedding_param row))
       (Some (match comment row with Some _ => true | None => false end)))
    (option_map (fun c => 0 <? LENGTH (TRIM c)) (comment row)).

(** The rows for which the [WHERE] clause is true, each with its distance. *)
Fixpoint selected (conflict : variable_conflict) (query_embedding_param : vector)
    (match_threshold : Q) (table : list feedback) : list (feedback * Q) :=
  match table with
  | [] => []
  | row :: rest =>
      let tail := selected conflict query_embedding_param match_threshold rest in
      match where_clause conflict query_embedding_param match_threshold row,
            distance conflict query_embedding_param row with
      | Some true, Some d => (row, d) :: tail
      | _, _ => tail
      end
  end.

(** [ORDER BY distance] (ascending), as a stable insertion sort: SQL leaves
    the order of rows with equal keys open, and this is one of the orders
    it allows. *)
Fixpoint insert_by_distance (x : feedback * Q) (sorted : list (feedback * Q))
  : list (feedback * Q) :=
  match sorted with
  | [] => [x]
  | y :: rest => if Qle_bool (snd x) (snd y) then x :: sorted
                 else y :: insert_by_distance x rest
  end.

Definition order_by_distance (rows : list (feedback * Q)) : list (feedback * Q) :=
  fold_right insert_by_distance [] rows.

(** The [SELECT] list. *)
Definition project (r : feedback * Q) : match_row :=
  let row := fst r in
  {| m_id := id row;
     m_user_query := user_query row;
     m_ai_response := ai_response row;
     m_feedback_type := feedback_type row;
     m_chat_id := chat_id row;
     m_rating := rating row;
     m_comment := comment row;
     m_created_at := created_at row;
     similarity := 1 - snd r |}.

(** [match_feedback_by_embedding(query_embedding, match_threshold, match_count)]
    over the rows of [feedback], for arguments that are not NULL. *)
Definition match_feedback_by_embedding (conflict : variable_conflict)
    (table : list feedback) (query_embedding_param : vector)
    (match_threshold : Q) (match_count : Z) : outcome :=
  match conflict with
  | error => Raise (ambiguous_column "query_embedding")
  | _ =>
      if match_count <? 0 then Raise negative_limit
      else
        Rows (map project
                (firstn (Z.to_nat match_count)
                   (order_by_distance
                      (selected conflict query_embedding_param match_threshold table))))
  end.

End Search.

End Feedback.

(* ================================================================== *)
(** * Vocabulary of the properties *)
(* ================================================================== *)

Module Spec.
Import JS Form.


(** The [chunkSize] and [chunkOverlap] a splitter was built with. *)
Definition splitter_chunkSize (t : TextSplitter) : number :=
  match t with
  | CharacterTextSplitter s _ | RecursiveCharacterTextSplitter s _ _ => s
  end.

Definition splitter_chunkOverlap (t : TextSplitter) : number :=
  match t with
  | CharacterTextSplitter _ o | RecursiveCharacterTextSplitter _ o _ => o
  end.

(** A backend advertises every capability that is required as true. *)
Definition satisfies (p : PdfParsers.ParserInfo) (r : PdfParsers.Requirements) : Prop :=
  forall f, In (f, true) r -> PdfParsers.feature (PdfParsers.features p) f = true.

(** The same request with another [metadata] field. *)
Definition with_metadata (form : FormData) (m : option string) : FormData :=
  {| files := files form;
     metadata := m;
     splitterType := splitterType form;
     chunkSize := chunkSize form;
     chunkOverlap := chunkOverlap form;
     pdfParser := pdfParser form |}.

(** The request passes the checks made before the file loop of the upload
    endpoint, with [metadata] the parsed metadata. *)
Definition accepted (w : World) (form : FormData) (metadata : jsval) : Prop :=
  createServerSupabaseClient w = None /\
  files form <> [] /\
  missing (Form.metadata form) = false /\
  JSON_parse w (as_string (Form.metadata form)) = Return metadata /\
  new_TextSplitter w (textSplitter_of form) = None.

(** The chunks a file yields: it is parsed, its text is not blank, and the
    splitter returns [chunks]. *)
Definition yields (w : World) (form : FormData) (file : File)
    (pdfResult : PdfParsers.PDFParseResult) (chunks : list string) : Prop :=
  parse_file w form file = Return pdfResult /\
  blank (PdfParsers.text pdfResult) = false /\
  splitText w (textSplitter_of form) (PdfParsers.text pdfResult) = Return chunks.


(** No failure at the level of a file. *)
Definition file_passes (w : World) (form : FormData) (file : File) : Prop :=
  exists pdfResult,
    parse_file w form file = Return pdfResult /\
    (blank (PdfParsers.text pdfResult) = true \/
     exists chunks,
       splitText w (textSplitter_of form) (PdfParsers.text pdfResult) = Return chunks).

(** The file went through the whole body of the upload loop: parsed, with
    text, split into at least one chunk. *)
Definition processed (w : World) (form : FormData) (file : File) : bool :=
  match parse_file w form file with
  | Throw _ => false
  | Return pdfResult =>
      if blank (PdfParsers.text pdfResult) then false
      else match splitText w (textSplitter_of form) (PdfParsers.text pdfResult) with
           | Return (_ :: _) => true
           | _ => false
           end
  end.

Section Chunk.
Variables (w : World) (metadata : jsval) (fi : nat) (file : File)
          (pdfResult : PdfParsers.PDFParseResult) (n : Z).

(** Chunk [i] is embedded and its row is stored. *)
Definition chunk_succeeds (i : nat) (chunk : string) : Prop :=
  exists text embedding,
    Upload.contextEnhancedText metadata file chunk = Some text /\
    generateEmbedding w fi i text = Return embedding /\
    insert w fi i (Upload.row_of metadata file pdfResult n (Z.of_nat i) chunk embedding)
    = Return None.

(** The embedding call for chunk [i] fails, or the insert of its row does
    (it answers with an error, or rejects). *)
Definition chunk_fails (i : nat) (chunk : string) : Prop :=
  exists text,
    Upload.contextEnhancedText metadata file chunk = Some text /\
    ((exists e, generateEmbedding w fi i text = Throw e) \/
     (exists embedding,
        generateEmbedding w fi i text = Return embedding /\
        insert w fi i (Upload.row_of metadata file pdfResult n (Z.of_nat i) chunk embedding)
        <> Return None)).

(** The row that the body of the chunk loop stores for chunk [i], if any. *)
Definition chunk_row (i : nat) (chunk : string) : option StoredChunkRecord :=
  match Upload.contextEnhancedText metadata file chunk with
  | None => None
  | Some text =>
      match generateEmbedding w fi i text with
      | Throw _ => None
      | Return embedding =>
          let row := Upload.row_of metadata file pdfResult n (Z.of_nat i) chunk embedding in
          match insert w fi i row with
          | Return None => Some row
          | _ => None
          end
      end
  end.

(** The rows stored for the chunks from index [i] on. *)
Fixpoint chunk_rows (i : nat) (chunks : list string) : list StoredChunkRecord :=
  match chunks with
  | [] => []
  | chunk :: rest =>
      match chunk_row i chunk with
      | Some row => row :: chunk_rows (S i) rest
      | None => chunk_rows (S i) rest
      end
  end.

End Chunk.

(** The rows stored for file number [fi]. *)
Definition file_rows (w : World) (form : FormData) (metadata : jsval)
    (fi : nat) (file : File) : list StoredChunkRecord :=
  match parse_file w form file with
  | Throw _ => []
  | Return pdfResult =>
      if blank (PdfParsers.text pdfResult) then []
      else match splitText w (textSplitter_of form) (PdfParsers.text pdfResult) with
           | Throw _ => []
           | Return chunks =>
               chunk_rows w metadata fi file pdfResult
                 (Z.of_nat (List.length chunks)) 0 chunks
           end
  end.

(** The rows stored for the files from number [fi] on. *)
Fixpoint all_rows (w : World) (form : FormData) (metadata : jsval)
    (fi : nat) (todo : list File) : list StoredChunkRecord :=
  match todo with
  | [] => []
  | file :: rest =>
      (file_rows w form metadata fi file ++ all_rows w form metadata (S fi) rest)%list
  end.

(** The state of the upload loops after [rs] more rows were stored. *)
Definition add_rows (st : Upload.Loop) (rs : list StoredChunkRecord) : Upload.Loop :=
  {| Upload.totalChunks := Upload.totalChunks st + Z.of_nat (List.length rs);
     Upload.documentsCount := Upload.documentsCount st;
     Upload.rows := (Upload.rows st ++ rs)%list;
     Upload.parsed := Upload.parsed st |}.

(** The state of the file loop after file number [fi]. *)
Definition after_file (w : World) (form : FormData) (metadata : jsval)
    (st : Upload.Loop) (fi : nat) (file : File) : Upload.Loop :=
  {| Upload.totalChunks :=
       Upload.totalChunks st + Z.of_nat (List.length (file_rows w form metadata fi file));
     Upload.documentsCount :=
       Upload.documentsCount st + (if processed w form file then 1 else 0);
     Upload.rows := (Upload.rows st ++ file_rows w form metadata fi file)%list;
     Upload.parsed := (Upload.parsed st ++ [file_name file])%list |}.

(** The state of the file loop after the files [todo], numbered from [fi]. *)
Definition after_files (w : World) (form : FormData) (metadata : jsval)
    (st : Upload.Loop) (fi : nat) (todo : list File) : Upload.Loop :=
  {| Upload.totalChunks :=
       Upload.totalChunks st + Z.of_nat (List.length (all_rows w form metadata fi todo));
     Upload.documentsCount :=
       Upload.documentsCount st + Z.of_nat (List.length (filter (processed w form) todo));
     Upload.rows := (Upload.rows st ++ all_rows w form metadata fi todo)%list;
     Upload.parsed := (Upload.parsed st ++ map file_name todo)%list |}.

(** The files handed to the parser by the preview loop, whether it ran to
    its end or returned early. *)
Definition parsed_by (r : Preview.Loop + (Response Preview.Body * list string))
  : list string :=
  match r with
  | inl st => Preview.parsed st
  | inr (_, parsed) => parsed
  end.


(** The 1-based positions [1..n] without position [k + 1]. *)
Definition positions_without (k n : nat) : list Z :=
  map (fun i => Z.of_nat i + 1) (filter (fun i => negb (Nat.eqb i k)) (seq 0 n)).

End Spec.

(* ================================================================== *)
(** * A concrete deployment, for the examples *)
(* ================================================================== *)

Module Scenario.
Import JS Form.

Definition report : File :=
  {| file_name := "report.pdf"; file_size := 4;
     file_bytes := [Byte.x25; Byte.x50; Byte.x44; Byte.x46] |}.

Definition broken : File :=
  {| file_name := "broken.pdf"; file_size := 0; file_bytes := [] |}.

Definition ten_chunks : list string :=
  ["chunk 1"; "chunk 2"; "chunk 3"; "chunk 4"; "chunk 5";
   "chunk 6"; "chunk 7"; "chunk 8"; "chunk 9"; "chunk 10"].

(** A production deployment: pdf-parse rejects an empty buffer, the
    splitter cuts a text into ten chunks, JSON.parse knows the empty
    object, and the embedding service fails on the fourth chunk of a file
    (0-based position 3). *)
Definition world : World :=
  {| NODE_ENV := Some "production";
     createServerSupabaseClient := None;
     pdf := fun buffer =>
              match buffer with
              | [] => Throw (Err "Invalid PDF structure")
              | _ => Return {| PdfParsers.data_text := "Quarterly results";
                               PdfParsers.data_numpages := 1;
                               PdfParsers.data_info := JNull |}
              end;
     elapsed := fun _ => 12;
     JSON_parse := fun s => if String.eqb s "{}" then Return (JObj [])
                            else Throw (Err "Unexpected token");
     new_TextSplitter := fun _ => None;
     splitText := fun _ _ => Return ten_chunks;
     generateEmbedding := fun _ i _ => if Nat.eqb i 3 then Throw (Err "429 Too Many Requests")
                                       else Return [];
     insert := fun _ _ _ => Return None |}.

(** A request with default chunking parameters. *)
Definition request (fs : list File) (m : option string) : FormData :=
  {| files := fs; metadata := m; splitterType := None;
     chunkSize := None; chunkOverlap := None; pdfParser := None |}.

(** What parsePDF gives for [report]. *)
Definition report_parsed : PdfParsers.PDFParseResult :=
  {| PdfParsers.text := "Quarterly results";
     PdfParsers.metadata :=
       JObj [("pages", JNum 1); ("title", JUndefined); ("author", JUndefined);
             ("creator", JUndefined); ("subject", JUndefined); ("keywords", JUndefined);
             ("creationDate", JUndefined); ("modificationDate", JUndefined)];
     PdfParsers.parseTime := 12;
     PdfParsers.parserUsed := "pdf-parse" |}.

(** The row of the first chunk of [report]. *)
Definition first_row : StoredChunkRecord :=
  Upload.row_of (JObj []) report report_parsed 10 0 "chunk 1" [].

(** A toy distance for the feedback search: 0 between equal vectors, 1
    otherwise. *)
Fixpoint same (a b : Feedback.vector) : bool :=
  match a, b with
  | [], [] => true
  | x :: a', y :: b' => Qeq_bool x y && same a' b'
  | _, _ => false
  end.

Definition discrete (a b : Feedback.vector) : Q :=
  if same a b then 0%Q else 1%Q.

Definition feedback_row (i : string) (c : option string) (e : option Feedback.vector)
  : Feedback.feedback :=
  {| Feedback.id := i; Feedback.user_query := "What moved the margin?";
     Feedback.ai_response := "Pricing."; Feedback.feedback_type := "helpful";
     Feedback.chat_id := None; Feedback.rating := None;
     Feedback.comment := c; Feedback.query_embedding := e;
     Feedback.created_at := 0 |}.

(** Four stored rows: a match, a row with a blank comment, a row without
    embedding, and a row about something else. *)
Definition feedback_table : list Feedback.feedback :=
  [feedback_row "a" (Some "spot on") (Some [1%Q; 0%Q]);
   feedback_row "b" (Some "   ") (Some [1%Q; 0%Q]);
   feedback_row "c" (Some "fine") None;
   feedback_row "d" (Some "off topic") (Some [0%Q; 1%Q])].

End Scenario.

(* ================================================================== *)
(** * setup-feedback-table.sql: the table, its views and the setup test *)
(* ================================================================== *)

(** Rows are those of [Feedback.feedback]: their [created_at] is set, as
    the column default NOW() does for every insert that does not name the
    column. *)
Module FeedbackSchema.
Import Feedback.

(** [CHECK (feedback_type IN ('helpful', 'not_helpful', 'partial', 'detailed'))]. *)
Definition feedback_types : list string :=
  ["helpful"; "not_helpful"; "partial"; "detailed"].

Definition feedback_type_check (row : feedback) : bool :=
  existsb (String.eqb (feedback_type row)) feedback_types.

(** [CHECK (rating >= 1 AND rating <= 5)]: a check is passed when its
    expression is true or NULL. *)
Definition rating_check (row : feedback) : bool :=
  match rating row with
  | Some r => (1 <=? r) && (r <=? 5)
  | None => true
  end.

Inductive violation : Type :=
| unique_violation            (* duplicate key value of the primary key *)
| check_violation.

(** [INSERT INTO feedback] of a complete row (the NOT NULL columns are not
    options): both checks must pass, and then the primary key must be new
    (the checks are made before the row reaches the index). *)
Definition insert_row (table : list feedback) (row : feedback)
  : list feedback + violation :=
  if feedback_type_check row && rating_check row
  then if existsb (fun r => String.eqb (id r) (id row)) table then inr unique_violation
       else inl (table ++ [row])%list
  else inr check_violation.

(** ** The view feedback_stats *)

Definition has_type (t : string) (row : feedback) : bool :=
  String.eqb (feedback_type row) t.

Definition rated (row : feedback) : bool :=
  match rating row with Some _ => true | None => false end.

(** [COUNT(CASE WHEN p THEN 1 END)]: the rows for which [p] is true. *)
Definition COUNT (p : feedback -> bool) (rows : list feedback) : Z :=
  Z.of_nat (List.length (filter p rows)).

(** The ratings that are not NULL. *)
Fixpoint ratings (rows : list feedback) : list Z :=
  match rows with
  | [] => []
  | row :: rest => match rating row with
                   | Some r => r :: ratings rest
                   | None => ratings rest
                   end
  end.

(** [AVG(rating)]: the quotient of the sum by the count, NULL when no
    rating is set.  (PostgreSQL gives a numeric, the quotient rounded to a
    scale of sixteen digits or more; the model keeps it exact.) *)
Definition AVG (xs : list Z) : option Q :=
  match xs with
  | [] => None
  | _ :: _ => Some (fold_right Z.add 0 xs # Pos.of_nat (List.length xs))
  end.

(** [MIN] and [MAX] of a column without NULLs; NULL over no row. *)
Fixpoint MIN (xs : list Z) : option Z :=
  match xs with
  | [] => None
  | x :: r => match MIN r with Some m => Some (Z.min x m) | None => Some x end
  end.

Fixpoint MAX (xs : list Z) : option Z :=
  match xs with
  | [] => None
  | x :: r => match MAX r with Some m => Some (Z.max x m) | None => Some x end
  end.

Record stats : Type := {
  total_feedback : Z;
  helpful_count : Z;
  not_helpful_count : Z;
  partial_count : Z;
  detailed_count : Z;
  avg_rating : option Q;
  rated_responses : Z;
  first_feedback : option Z;
  latest_feedback : option Z
}.

(** The one row of [feedback_stats]. *)
Definition feedback_stats (table : list feedback) : stats :=
  {| total_feedback := COUNT (fun _ => true) table;
     helpful_count := COUNT (has_type "helpful") table;
     not_helpful_count := COUNT (has_type "not_helpful") table;
     partial_count := COUNT (has_type "partial") table;
     detailed_count := COUNT (has_type "detailed") table;
     avg_rating := AVG (ratings table);
     rated_responses := COUNT rated table;
     first_feedback := MIN (map created_at table);
     latest_feedback := MAX (map created_at table) |}.

(** ** The view daily_feedback_trends *)

Record trend : Type := {
  feedback_date : Z;
  day_total : Z;
  day_helpful : Z;
  day_not_helpful : Z;
  day_partial : Z;
  day_detailed : Z;
  day_avg_rating : option Q
}.

Section Trends.

(** [DATE(created_at)]: the day of a timestamp in the time zone of the
    session, as a day number. *)
Variable DATE : Z -> Z.

(** The distinct values of the grouping expression, in the order of
    [ORDER BY feedback_date DESC]. *)
Fixpoint insert_date (d : Z) (days : list Z) : list Z :=
  match days with
  | [] => [d]
  | x :: rest => if x <? d then d :: days
                 else if x =? d then days
                 else x :: insert_date d rest
  end.

Definition days_of (table : list feedback) : list Z :=
  fold_right (fun row days => insert_date (DATE (created_at row)) days) [] table.

(** The group of a day. *)
Definition on_day (d : Z) (table : list feedback) : list feedback :=
  filter (fun row => DATE (created_at row) =? d) table.

Definition trend_of (d : Z) (group : list feedback) : trend :=
  {| feedback_date := d;
     day_total := COUNT (fun _ => true) group;
     day_helpful := COUNT (has_type "helpful") group;
     day_not_helpful := COUNT (has_type "not_helpful") group;
     day_partial := COUNT (has_type "partial") group;
     day_detailed := COUNT (has_type "detailed") group;
     day_avg_rating := AVG (ratings group) |}.

(** The rows of [daily_feedback_trends]. *)
Definition daily_feedback_trends (table : list feedback) : list trend :=
  map (fun d => trend_of d (on_day d table)) (days_of table).

End Trends.

(** ** The [DO] block that tests the setup *)

Inductive notice : Type :=
| setup_completed             (* Feedback table setup completed successfully! *)
| ready_to_use                (* The feedback system is ready to use. *)
| test_record_cleaned_up      (* Test record cleaned up. *)
| verification_failed         (* Setup verification failed. *)
| available_views
| available_functions.

(** The row of the block's [INSERT]: [uuid] is what uuid_generate_v4()
    gives and [now] what NOW() gives; rating and embedding are NULL. *)
Definition test_row (uuid : string) (now : Z) : feedback :=
  {| id := uuid;
     user_query := "Test query";
     ai_response := "Test response";
     feedback_type := "helpful";
     chat_id := Some "test-setup";
     rating := None;
     comment := Some "Test feedback for setup verification";
     query_embedding := None;
     created_at := now |}.

(** [chat_id = 'test-setup'] is true. *)
Definition is_test_setup (row : feedback) : bool :=
  match chat_id row with
  | Some c => String.eqb c "test-setup"
  | None => false
  end.

(** The block: the table it leaves and the notices it raises, or the
    error that aborts it (leaving the table as it was). *)
Definition setup_test (uuid : string) (now : Z) (table : list feedback)
  : (list feedback * list notice) + violation :=
  match insert_row table (test_row uuid now) with
  | inr v => inr v
  | inl inserted =>
      if existsb is_test_setup inserted
      then inl (filter (fun row => negb (is_test_setup row)) inserted,
                [setup_completed; ready_to_use; test_record_cleaned_up;
                 available_views; available_functions])
      else inl (inserted, [verification_failed; available_views; available_functions])
  end.

End FeedbackSchema.

(* ================================================================== *)
(** * Vocabulary of the further properties *)
(* ================================================================== *)

Module Behaviour.
Import JS Form.

(** The chunks the preview loop collects for a file that does not fail. *)
Definition file_chunks (w : World) (form : FormData) (file : File) : list string :=
  match parse_file w form file with
  | Throw _ => []
  | Return pdfResult =>
      if blank (PdfParsers.text pdfResult) then []
      else match splitText w (textSplitter_of form) (PdfParsers.text pdfResult) with
           | Return chunks => chunks
           | Throw _ => []
           end
  end.

Definition preview_chunks (w : World) (form : FormData) (todo : list File) : list string :=
  flat_map (file_chunks w form) todo.

(** The parse durations of the files, summed. *)
Fixpoint parse_times (w : World) (form : FormData) (todo : list File) : Z :=
  match todo with
  | [] => 0
  | file :: rest =>
      match parse_file w form file with
      | Return pdfResult => PdfParsers.parseTime pdfResult + parse_times w form rest
      | Throw _ => parse_times w form rest
      end
  end.

(** The entries of [files_metadata], one per parsed file. *)
Fixpoint files_metadata_of (w : World) (form : FormData) (todo : list File) : list obj :=
  match todo with
  | [] => []
  | file :: rest =>
      match parse_file w form file with
      | Return pdfResult =>
          Preview.file_metadata file pdfResult :: files_metadata_of w form rest
      | Throw _ => files_metadata_of w form rest
      end
  end.

(** The variables of the preview loop after the files [todo], none of
    which failed. *)
Definition collected (w : World) (form : FormData) (st : Preview.Loop)
    (todo : list File) : Preview.Loop :=
  {| Preview.allChunks := (Preview.allChunks st ++ preview_chunks w form todo)%list;
     Preview.totalParseTime := Preview.totalParseTime st + parse_times w form todo;
     Preview.extractedMetadata :=
       (Preview.extractedMetadata st ++ files_metadata_of w form todo)%list;
     Preview.parsed := (Preview.parsed st ++ map file_name todo)%list |}.


(** The keys the upload endpoint writes into the metadata object of a row
    after the user's. *)
Definition reserved_keys : list string :=
  ["chunk_index"; "total_chunks"; "filename"; "file_size";
   "parser_used"; "parse_time"; "pdf_metadata"].

(** A capability is required as true. *)
Definition feature_eqb (a b : PdfParsers.Feature) : bool :=
  match a, b with
  | PdfParsers.ExtractText, PdfParsers.ExtractText
  | PdfParsers.ExtractMetadata, PdfParsers.ExtractMetadata
  | PdfParsers.HandleEncrypted, PdfParsers.HandleEncrypted
  | PdfParsers.HandleImages, PdfParsers.HandleImages
  | PdfParsers.PreserveFormatting, PdfParsers.PreserveFormatting
  | PdfParsers.OcrCapability, PdfParsers.OcrCapability => true
  | _, _ => false
  end.

Definition requires (f : PdfParsers.Feature) (r : PdfParsers.Requirements) : bool :=
  existsb (fun e => feature_eqb (fst e) f && snd e) r.

(** A capability that no registered backend advertises is required. *)
Definition requires_unsupported (r : PdfParsers.Requirements) : bool :=
  requires PdfParsers.HandleImages r
  || requires PdfParsers.PreserveFormatting r
  || requires PdfParsers.OcrCapability r.

(** What [x || null] can be: null, or a truthy value. *)
Definition null_or_truthy (v : jsval) : Prop := v = JNull \/ truthy v = true.

(** The files of a request with their positions, from [fi] on. *)
Fixpoint numbered (fi : nat) (todo : list File) : list (nat * File) :=
  match todo with
  | [] => []
  | file :: rest => (fi, file) :: numbered (S fi) rest
  end.


End Behaviour.

(** Further deployments, for the examples. *)
Module Scenario2.
Import JS Form Scenario.

(** As [world], in development mode and with an embedding service that
    never fails. *)
Definition development : World :=
  {| NODE_ENV := Some "development";
     createServerSupabaseClient := None;
     pdf := pdf world;
     elapsed := elapsed world;
     JSON_parse := JSON_parse world;
     new_TextSplitter := new_TextSplitter world;
     splitText := splitText world;
     generateEmbedding := fun _ _ _ => Return [];
     insert := insert world |}.

(** As [development], in production and with a JSON.parse that reads the
    text null. *)
Definition null_metadata : World :=
  {| NODE_ENV := Some "production";
     createServerSupabaseClient := None;
     pdf := pdf world;
     elapsed := elapsed world;
     JSON_parse := fun s => if String.eqb s "null" then Return JNull
                            else Throw (Err "Unexpected token");
     new_TextSplitter := new_TextSplitter world;
     splitText := splitText world;
     generateEmbedding := fun _ _ _ => Return [];
     insert := insert world |}.


Definition quote : string := String "034" EmptyString.

(** The JSON text of an object with the one key genre. *)
Definition genre_json : string :=
  "{" ++ quote ++ "genre" ++ quote ++ ":" ++ quote ++ "finance" ++ quote ++ "}".

(** As [reliable], with a JSON.parse that reads [genre_json]. *)
Definition tagged : World :=
  {| NODE_ENV := Some "production";
     createServerSupabaseClient := None;
     pdf := pdf world;
     elapsed := elapsed world;
     JSON_parse := fun s => if String.eqb s genre_json
                            then Return (JObj [("genre", JStr "finance")])
                            else Throw (Err "Unexpected token");
     new_TextSplitter := new_TextSplitter world;
     splitText := splitText world;
     generateEmbedding := fun _ _ _ => Return [];
     insert := insert world |}.

(** The row of the first chunk of [report] under [tagged]. *)
Definition tagged_row : StoredChunkRecord :=
  Upload.row_of (JObj [("genre", JStr "finance")]) report report_parsed 10 0 "chunk 1" [].

(** The statistics of a preview of [report]. *)
Definition report_stats : Preview.ChunkStats :=
  Preview.chunkStats ten_chunks 12 "pdf-parse" [Preview.file_metadata report report_parsed].

(** Day numbers of timestamps in seconds, in UTC. *)
Definition utc_day (t : Z) : Z := t / 86400.

Definition dated (i : string) (kind : string) (r : option Z) (t : Z) : Feedback.feedback :=
  {| Feedback.id := i; Feedback.user_query := "q"; Feedback.ai_response := "a";
     Feedback.feedback_type := kind; Feedback.chat_id := None; Feedback.rating := r;
     Feedback.comment := None; Feedback.query_embedding := None;
     Feedback.created_at := t |}.

Definition three_days : list Feedback.feedback :=
  [dated "1" "helpful" (Some 5) 100; dated "2" "partial" None 90000;
   dated "3" "helpful" (Some 2) 200; dated "4" "detailed" (Some 4) 180000].

End Scenario2.

(* ================================================================== *)
(** * Properties *)
(* ================================================================== *)

Import JS Form Spec.

(** ** The loops of the upload endpoint, characterised *)

Section UploadLoops.
Variables (w : World) (form : FormData) (metadata : jsval).

Lemma add_rows_nil st : add_rows st [] = st.
Proof.
  destruct st; unfold add_rows; cbn. rewrite app_nil_r. f_equal. lia.
Qed.

Lemma add_rows_cons st r rs : add_rows (add_rows st [r]) rs = add_rows st (r :: rs).
Proof.
  unfold add_rows; cbn [Upload.totalChunks Upload.documentsCount Upload.rows Upload.parsed].
  rewrite <- app_assoc. cbn [List.length app]. f_equal. lia.
Qed.

Lemma store_chunk_row fi file pdfResult n i chunk st :
  Upload.store_chunk w metadata fi file pdfResult n i chunk st =
  match chunk_row w metadata fi file pdfResult n i chunk with
  | Some row => add_rows st [row]
  | None => st
  end.
Proof.
  unfold Upload.store_chunk, chunk_row.
  destruct (Upload.contextEnhancedText metadata file chunk) as [text|]; [|reflexivity].
  destruct (generateEmbedding w fi i text) as [emb|]; [|reflexivity].
  destruct (insert w fi i _) as [[err|]|]; reflexivity.
Qed.

Lemma store_chunks_rows fi file pdfResult n chunks : forall i st,
  Upload.store_chunks w metadata fi file pdfResult n i chunks st =
  add_rows st (chunk_rows w metadata fi file pdfResult n i chunks).
Proof.
  induction chunks as [|chunk rest IH]; intros i st.
  - cbn. symmetry. apply add_rows_nil.
  - cbn [Upload.store_chunks chunk_rows]. rewrite IH, store_chunk_row.
    destruct (chunk_row w metadata fi file pdfResult n i chunk) as [row|].
    + apply add_rows_cons.
    + reflexivity.
Qed.

(** A file that is skipped leaves the counters and the rows as they are. *)
Ltac skipped := cbn; rewrite app_nil_r; f_equal; lia.

Lemma process_file_after fi file st :
  Upload.process_file w form metadata fi file st = after_file w form metadata st fi file.
Proof.
  unfold Upload.process_file, after_file, file_rows, processed.
  destruct (parse_file w form file) as [pdfResult|e]; [|skipped].
  destruct (blank (PdfParsers.text pdfResult)); [skipped|].
  destruct (splitText w (textSplitter_of form) (PdfParsers.text pdfResult))
    as [chunks|e]; [|skipped].
  destruct chunks as [|c cs]; [skipped|].
  rewrite store_chunks_rows. reflexivity.
Qed.

Lemma process_files_after todo : forall fi st,
  Upload.process_files w form metadata fi todo st = after_files w form metadata st fi todo.
Proof.
  induction todo as [|file rest IH]; intros fi st.
  - destruct st; unfold after_files; cbn. rewrite !app_nil_r. f_equal; lia.
  - cbn [Upload.process_files]. rewrite IH, process_file_after.
    unfold after_files, after_file.
    cbn [Upload.totalChunks Upload.documentsCount Upload.rows Upload.parsed
         all_rows filter map].
    rewrite <- !app_assoc, length_app. cbn [app].
    destruct (processed w form file); cbn [List.length]; f_equal; lia.
Qed.

(** The outcome of an accepted upload request. *)
Lemma POST_accepted :
  accepted w form metadata ->
  Upload.POST w form =
  let rows := all_rows w form metadata 0 (files form) in
  let documentsCount := Z.of_nat (List.length (filter (processed w form) (files form))) in
  let chunksCount := Z.of_nat (List.length rows) in
  {| Upload.response :=
       {| status := 200;
          body := Upload.Success true documentsCount chunksCount
                    (Upload.completed documentsCount chunksCount) |};
     Upload.stored := rows;
     Upload.parsed_files := map file_name (files form) |}.
Proof.
  intros (Hclient & Hfiles & Hmeta & Hjson & Hsplit). unfold Upload.POST.
  rewrite Hclient.
  destruct (files form) as [|f fs] eqn:E; [congruence|].
  rewrite Hmeta, Hjson, Hsplit, process_files_after. reflexivity.
Qed.

End UploadLoops.

(** ** Rows and their positions *)

Lemma own_set_same k v o : own k (set k v o) = Some v.
Proof.
  induction o as [|[k' v'] r IH]; cbn.
  - rewrite String.eqb_refl. reflexivity.
  - destruct (String.eqb k k') eqn:E; cbn.
    + rewrite String.eqb_refl. reflexivity.
    + rewrite E. exact IH.
Qed.

Lemma own_set_other k k' v o :
  String.eqb k k' = false -> own k (set k' v o) = own k o.
Proof.
  intros Hk. induction o as [|[k'' v''] r IH]; cbn.
  - rewrite Hk. reflexivity.
  - destruct (String.eqb k' k'') eqn:E; cbn.
    + apply String.eqb_eq in E. subst k''. rewrite Hk. reflexivity.
    + rewrite IH. reflexivity.
Qed.


Lemma chunk_row_some w metadata fi file pdfResult n i chunk row :
  chunk_row w metadata fi file pdfResult n i chunk = Some row ->
  exists embedding,
    row = Upload.row_of metadata file pdfResult n (Z.of_nat i) chunk embedding.
Proof.
  unfold chunk_row.
  destruct (Upload.contextEnhancedText metadata file chunk) as [text|]; [|discriminate].
  destruct (generateEmbedding w fi i text) as [emb|]; [|discriminate].
  destruct (insert w fi i _) as [[err|]|]; try discriminate.
  intros [= <-]. exists emb. reflexivity.
Qed.

Lemma chunk_rows_In w metadata fi file pdfResult n row chunks : forall i,
  In row (chunk_rows w metadata fi file pdfResult n i chunks) ->
  exists j chunk embedding,
    nth_error chunks j = Some chunk /\
    row = Upload.row_of metadata file pdfResult n (Z.of_nat (i + j)) chunk embedding.
Proof.
  induction chunks as [|c rest IH]; intros i Hin; [contradiction|].
  cbn [chunk_rows] in Hin.
  assert (Hrest : In row (chunk_rows w metadata fi file pdfResult n (S i) rest) ->
                  exists j chunk embedding,
                    nth_error (c :: rest) j = Some chunk /\
                    row = Upload.row_of metadata file pdfResult n
                            (Z.of_nat (i + j)) chunk embedding).
  { intros H. destruct (IH _ H) as (j & chunk & emb & Hj & ->).
    exists (S j), chunk, emb. split; [exact Hj|].
    replace (i + S j)%nat with (S i + j)%nat by lia. reflexivity. }
  destruct (chunk_row w metadata fi file pdfResult n i c) as [r|] eqn:E; [|auto].
  destruct Hin as [<- | Hin]; [|auto].
  destruct (chunk_row_some _ _ _ _ _ _ _ _ _ E) as (emb & ->).
  exists 0%nat, c, emb. split; [reflexivity|].
  rewrite Nat.add_0_r. reflexivity.
Qed.

Lemma file_rows_In w form metadata fi file row :
  In row (file_rows w form metadata fi file) ->
  exists pdfResult chunks i embedding,
    yields w form file pdfResult chunks /\
    nth_error chunks i = Some (content row) /\
    row = Upload.row_of metadata file pdfResult (Z.of_nat (List.length chunks))
            (Z.of_nat i) (content row) embedding.
Proof.
  unfold file_rows, yields.
  destruct (parse_file w form file) as [pdfResult|]; [|contradiction].
  destruct (blank (PdfParsers.text pdfResult)) eqn:B; [contradiction|].
  destruct (splitText w (textSplitter_of form) (PdfParsers.text pdfResult))
    as [chunks|] eqn:S; [|contradiction].
  intros Hin. destruct (chunk_rows_In _ _ _ _ _ _ _ _ _ Hin) as (j & chunk & emb & Hj & ->).
  exists pdfResult, chunks, j, emb. cbn [Upload.row_of content]. auto.
Qed.

Lemma all_rows_In w form metadata row todo : forall fi,
  In row (all_rows w form metadata fi todo) ->
  exists file fi', In file todo /\ In row (file_rows w form metadata fi' file).
Proof.
  induction todo as [|f rest IH]; intros fi Hin; [contradiction|].
  cbn [all_rows] in Hin. apply in_app_or in Hin. destruct Hin as [Hin | Hin].
  - exists f, fi. split; [left; reflexivity | exact Hin].
  - destruct (IH _ Hin) as (file & fi' & Hf & Hr). exists file, fi'. split; [right|]; auto.
Qed.

(** A request is accepted, or nothing is stored. *)
Lemma POST_accepted_or_empty w form :
  (exists metadata, accepted w form metadata) \/ Upload.stored (Upload.POST w form) = [].
Proof.
  unfold Upload.POST, accepted.
  destruct (createServerSupabaseClient w); [right; reflexivity|].
  destruct (files form) as [|f fs]; [right; reflexivity|].
  destruct (missing (metadata form)); [right; reflexivity|].
  destruct (JSON_parse w (as_string (metadata form))) as [m|]; [|right; reflexivity].
  destruct (new_TextSplitter w (textSplitter_of form)); [right; reflexivity|].
  left. exists m. repeat split; congruence.
Qed.


(** ** Failures of single chunks *)

Lemma chunk_row_fails w metadata fi file pdfResult n i chunk :
  chunk_fails w metadata fi file pdfResult n i chunk ->
  chunk_row w metadata fi file pdfResult n i chunk = None.
Proof.
  intros (text & Htext & [[e He] | (emb & Hemb & Hins)]); unfold chunk_row; rewrite Htext.
  - rewrite He. reflexivity.
  - rewrite Hemb. cbv zeta.
    destruct (insert w fi i _) as [[err|]|]; congruence.
Qed.

Lemma chunk_row_succeeds w metadata fi file pdfResult n i chunk :
  chunk_succeeds w metadata fi file pdfResult n i chunk ->
  exists embedding,
    chunk_row w metadata fi file pdfResult n i chunk =
    Some (Upload.row_of metadata file pdfResult n (Z.of_nat i) chunk embedding).
Proof.
  intros (text & emb & Htext & Hemb & Hins). exists emb.
  unfold chunk_row. rewrite Htext, Hemb. cbv zeta. rewrite Hins. reflexivity.
Qed.

Lemma chunk_ids_without w metadata fi file pdfResult n k chunks : forall i,
  (forall j chunk, nth_error chunks j = Some chunk ->
     ((i + j)%nat = k -> chunk_fails w metadata fi file pdfResult n (i + j) chunk) /\
     ((i + j)%nat <> k -> chunk_succeeds w metadata fi file pdfResult n (i + j) chunk)) ->
  map chunk_id (chunk_rows w metadata fi file pdfResult n i chunks) =
  map (fun x => Z.of_nat x + 1)
      (filter (fun x => negb (Nat.eqb x k)) (seq i (List.length chunks))).
Proof.
  induction chunks as [|c rest IH]; intros i H; [reflexivity|].
  cbn [chunk_rows List.length seq filter].
  assert (Hrest : forall j chunk, nth_error rest j = Some chunk ->
            ((S i + j)%nat = k -> chunk_fails w metadata fi file pdfResult n (S i + j) chunk) /\
            ((S i + j)%nat <> k -> chunk_succeeds w metadata fi file pdfResult n (S i + j) chunk)).
  { intros j chunk Hj. replace (S i + j)%nat with (i + S j)%nat by lia.
    apply H. exact Hj. }
  destruct (H 0%nat c eq_refl) as [Hfail Hok]. rewrite Nat.add_0_r in Hfail, Hok.
  destruct (Nat.eqb_spec i k) as [E | E]; cbn [negb].
  - rewrite (chunk_row_fails _ _ _ _ _ _ _ _ (Hfail E)). apply IH, Hrest.
  - destruct (chunk_row_succeeds _ _ _ _ _ _ _ _ (Hok E)) as (emb & ->).
    cbn [map]. f_equal. apply IH, Hrest.
Qed.

Lemma filter_without_length k n : forall i,
  List.length (filter (fun x => negb (Nat.eqb x k)) (seq i n)) =
  if (i <=? k)%nat && (k <? i + n)%nat then (n - 1)%nat else n.
Proof.
  induction n as [|n IH]; intros i.
  - cbn [seq filter List.length].
    destruct ((i <=? k)%nat && (k <? i + 0)%nat); reflexivity.
  - cbn [seq filter]. specialize (IH (S i)).
    destruct (Nat.eqb_spec i k) as [E | E]; cbn [negb List.length].
    + rewrite IH.
      destruct (Nat.leb_spec (S i) k); [lia|]. cbn [andb].
      destruct (Nat.leb_spec i k); [|lia].
      destruct (Nat.ltb_spec k (i + S n)); [|lia]. cbn. lia.
    + rewrite IH.
      destruct (Nat.leb_spec (S i) k), (Nat.leb_spec i k),
               (Nat.ltb_spec k (S i + n)), (Nat.ltb_spec k (i + S n));
        cbn [andb]; lia.
Qed.

Lemma positions_without_length k n :
  (k < n)%nat -> Z.of_nat (List.length (positions_without k n)) = Z.of_nat n - 1.
Proof.
  intros Hk. unfold positions_without. rewrite length_map, filter_without_length.
  destruct (Nat.leb_spec 0 k); [|lia].
  destruct (Nat.ltb_spec k (0 + n)); [|lia]. cbn [andb]. lia.
Qed.

(** C1.  An upload request with one file that yields [n] chunks, where the
    embedding call or the insert fails for the chunk at 0-based position
    [k] and for no other: the failure is caught, the loop goes on to the
    following chunks, and the response is success = true with
    documentsCount = 1 and chunksCount = n - 1; the rows stored are those
    of all the other chunks, in order.  (The example of the
    specification is n = 10 with chunk #4, that is k = 3.) *)
Theorem one_failed_chunk_is_skipped (w : World) (form : FormData) (metadata : jsval)
    (file : File) (pdfResult : PdfParsers.PDFParseResult) (chunks : list string)
    (k : nat) :
  accepted w form metadata ->
  files form = [file] ->
  yields w form file pdfResult chunks ->
  (k < List.length chunks)%nat ->
  (forall i chunk, nth_error chunks i = Some chunk ->
     (i = k -> chunk_fails w metadata 0 file pdfResult
                 (Z.of_nat (List.length chunks)) i chunk) /\
     (i <> k -> chunk_succeeds w metadata 0 file pdfResult
                  (Z.of_nat (List.length chunks)) i chunk)) ->
  let n := Z.of_nat (List.length chunks) in
  Upload.response (Upload.POST w form) =
    {| status := 200;
       body := Upload.Success true 1 (n - 1) (Upload.completed 1 (n - 1)) |} /\
  map chunk_id (Upload.stored (Upload.POST w form)) =
    positions_without k (List.length chunks).
Proof.
  intros Hacc Hfiles (Hparse & Hblank & Hsplit) Hk Hchunks n.
  rewrite (POST_accepted w form metadata Hacc). cbv zeta.
  cbn [Upload.response Upload.stored]. rewrite Hfiles.
  assert (Hrows : all_rows w form metadata 0 [file] =
                  chunk_rows w metadata 0 file pdfResult n 0 chunks).
  { cbn [all_rows]. rewrite app_nil_r. unfold file_rows.
    rewrite Hparse, Hblank, Hsplit. reflexivity. }
  assert (Hproc : processed w form file = true).
  { unfold processed. rewrite Hparse, Hblank, Hsplit.
    destruct chunks; [cbn in Hk; lia | reflexivity]. }
  assert (Hids : map chunk_id (chunk_rows w metadata 0 file pdfResult n 0 chunks) =
                 positions_without k (List.length chunks)).
  { apply chunk_ids_without. intros j chunk Hj. cbn [Nat.add]. apply Hchunks, Hj. }
  rewrite Hrows. cbn [filter]. rewrite Hproc. cbn [List.length].
  assert (Hlen : Z.of_nat (List.length (chunk_rows w metadata 0 file pdfResult n 0 chunks))
                 = n - 1).
  { rewrite <- (length_map chunk_id), Hids. apply positions_without_length, Hk. }
  rewrite Hlen. split; [reflexivity | exact Hids].
Qed.

(** C3, as amended.  For an accepted upload request the response is
    success = true, whatever was skipped; documentsCount is the number of
    files that were parsed, had text and gave at least one chunk, and
    chunksCount is the number of rows stored. *)
Theorem upload_counts (w : World) (form : FormData) (metadata : jsval) :
  accepted w form metadata ->
  let out := Upload.POST w form in
  let documentsCount := Z.of_nat (List.length (filter (processed w form) (files form))) in
  let chunksCount := Z.of_nat (List.length (Upload.stored out)) in
  Upload.response out =
    {| status := 200;
       body := Upload.Success true documentsCount chunksCount
                 (Upload.completed documentsCount chunksCount) |}.
Proof.
  intros Hacc. rewrite (POST_accepted w form metadata Hacc). reflexivity.
Qed.

(** ** Failures of whole files, and requests without metadata *)



Lemma preview_process_files_metadata w form m todo : forall st,
  Preview.process_files w (with_metadata form m) todo st =
  Preview.process_files w form todo st.
Proof.
  induction todo as [|file rest IH]; intros st; [reflexivity|].
  cbn [Preview.process_files].
  change (parse_file w (with_metadata form m) file) with (parse_file w form file).
  change (textSplitter_of (with_metadata form m)) with (textSplitter_of form).
  destruct (parse_file w form file) as [pdfResult|]; [|reflexivity].
  cbv zeta. destruct (blank (PdfParsers.text pdfResult)); [apply IH|].
  destruct (splitText w (textSplitter_of form) (PdfParsers.text pdfResult));
    [apply IH | reflexivity].
Qed.

(** The files handed to the parser by the preview loop start with the
    first file of the list. *)
Lemma preview_parsed_prefix w form todo : forall st,
  exists more,
    parsed_by (Preview.process_files w form todo st) = (Preview.parsed st ++ more)%list /\
    (forall f rest, todo = f :: rest -> exists more', more = file_name f :: more').
Proof.
  induction todo as [|file rest IH]; intros st.
  - exists []. cbn. rewrite app_nil_r. split; [reflexivity | discriminate].
  - cbn [Preview.process_files].
    assert (Hstep : forall st1,
              Preview.parsed st1 = (Preview.parsed st ++ [file_name file])%list ->
              exists more,
                parsed_by (Preview.process_files w form rest st1) =
                (Preview.parsed st ++ more)%list /\
                (forall f rest', file :: rest = f :: rest' ->
                                 exists more', more = file_name f :: more')).
    { intros st1 H1. destruct (IH st1) as (more & Hmore & _).
      exists (file_name file :: more). rewrite Hmore, H1, <- app_assoc.
      split; [reflexivity|]. intros f rest' [= <- <-]. eauto. }
    assert (Hstop : forall r : Response Preview.Body,
              exists more,
                parsed_by (inr (r, (Preview.parsed st ++ [file_name file])%list)) =
                (Preview.parsed st ++ more)%list /\
                (forall f rest', file :: rest = f :: rest' ->
                                 exists more', more = file_name f :: more')).
    { intros r. exists [file_name file]. split; [reflexivity|].
      intros f rest' [= <- <-]. eauto. }
    destruct (parse_file w form file) as [pdfResult|]; [|apply Hstop].
    cbv zeta. destruct (blank (PdfParsers.text pdfResult)); [apply Hstep; reflexivity|].
    destruct (splitText w (textSplitter_of form) (PdfParsers.text pdfResult));
      [apply Hstep; reflexivity | apply Hstop].
Qed.

(** C2, as amended.  A preview request with files and without metadata is
    not rejected for it: the metadata defaults to the empty object, the
    response is the one of the same request sent with a metadata field
    that parses, and (the splitter once built) the first file is handed
    to the parser.  The upload endpoint is the one that ends such a
    request at once with "Metadata is required" and HTTP 400, before any
    file is parsed (its database client once created). *)
Theorem preview_without_metadata (w : World) (form : FormData) :
  files form <> [] ->
  metadata form = None ->
  (forall s v, missing (Some s) = false -> JSON_parse w s = Return v ->
     Preview.POST w form = Preview.POST w (with_metadata form (Some s))) /\
  (new_TextSplitter w (textSplitter_of form) = None ->
   exists file rest,
     hd_error (files form) = Some file /\
     snd (Preview.POST w form) = file_name file :: rest) /\
  (createServerSupabaseClient w = None ->
   Upload.POST w form =
     {| Upload.response := {| status := 400; body := Upload.Failure "Metadata is required" |};
        Upload.stored := [];
        Upload.parsed_files := [] |}).
Proof.
  intros Hfiles Hmeta.
  destruct (files form) as [|f fs] eqn:E; [congruence|]. clear Hfiles.
  split; [|split].
  - intros s v Hs Hv. unfold Preview.POST.
    change (files (with_metadata form (Some s))) with (files form).
    change (metadata (with_metadata form (Some s))) with (Some s).
    change (textSplitter_of (with_metadata form (Some s))) with (textSplitter_of form).
    change (pdfParser_of (with_metadata form (Some s))) with (pdfParser_of form).
    rewrite E, Hmeta, Hs. cbn [missing as_string]. rewrite Hv.
    rewrite preview_process_files_metadata. reflexivity.
  - intros Hsplit. exists f. unfold Preview.POST. rewrite E, Hmeta, Hsplit.
    cbn [missing].
    destruct (preview_parsed_prefix w form (f :: fs)
                {| Preview.allChunks := []; Preview.totalParseTime := 0;
                   Preview.extractedMetadata := []; Preview.parsed := [] |})
      as (more & Hmore & Hfirst).
    destruct (Hfirst f fs eq_refl) as (more' & ->).
    cbn [Preview.parsed app] in Hmore.
    destruct (Preview.process_files w form (f :: fs) _) as [st | [r parsed]];
      cbn [parsed_by] in Hmore.
    + exists more'. split; [reflexivity|].
      destruct (Preview.allChunks st); cbn [snd]; exact Hmore.
    + exists more'. split; [reflexivity|]. cbn [snd]. exact Hmore.
  - intros Hclient. unfold Upload.POST. rewrite Hclient, E, Hmeta. reflexivity.
Qed.

(** ** The parser factory *)


Lemma own_class_In k c o :
  PdfParsers.own_class k o = Some c -> In k (map fst o).
Proof.
  induction o as [|[k' c'] r IH]; cbn; [discriminate|].
  destruct (String.eqb_spec k k') as [-> | _]; [left; reflexivity | right; auto].
Qed.

Lemma own_class_not_In k o :
  PdfParsers.own_class k o = None -> ~ In k (map fst o).
Proof.
  induction o as [|[k' c'] r IH]; cbn; [tauto|].
  destruct (String.eqb_spec k k') as [-> | Hne]; [discriminate|].
  intros H [E | Hin]; [congruence | exact (IH H Hin)].
Qed.

(** X1.  A registered name gives an instance of the class registered
    under it, without failing. *)
Lemma create_registered (parserType : string) :
  In parserType PdfParsers.Object_keys ->
  exists c, PdfParsers.create (Some parserType) = Return (PdfParsers.Instance c) /\
            PdfParsers.name c = parserType.
Proof.
  cbn. intros [<- | [<- | []]].
  - exists PdfParsers.PDFParseParser. split; reflexivity.
  - exists PdfParsers.MockPDFParser. split; reflexivity.
Qed.

(** X2.  A name that is neither registered nor a property of
    Object.prototype is refused with the message that lists the registered
    names. *)
Lemma create_unknown (parserType : string) :
  ~ In parserType PdfParsers.Object_keys ->
  parserType <> "constructor" ->
  parserType <> "__proto__" ->
  ~ In parserType PdfParsers.Object_prototype_methods ->
  PdfParsers.create (Some parserType) =
  Throw (Err ("Parser '" ++ parserType ++ "' not found. Available parsers: pdf-parse, mock")).
Proof.
  intros Hkeys Hctor Hproto Hmeth. unfold PdfParsers.create, PdfParsers.lookup.
  destruct (PdfParsers.own_class parserType PdfParsers.AVAILABLE_PARSERS) as [c|] eqn:E.
  { exfalso. apply Hkeys. exact (own_class_In _ _ _ E). }
  destruct (String.eqb_spec parserType "constructor"); [congruence|].
  destruct (String.eqb_spec parserType "__proto__"); [congruence|].
  destruct (existsb (String.eqb parserType) PdfParsers.Object_prototype_methods) eqn:X.
  { exfalso. apply existsb_exists in X. destruct X as (m & Hin & Heq).
    apply String.eqb_eq in Heq. subst m. exact (Hmeth Hin). }
  reflexivity.
Qed.

(** C7, at the names the check of [create] misses.  "constructor" and
    "toString" are not keys of the registry, yet [create] does not fail
    with the message that lists the registered parsers: for "constructor"
    it returns an object that is no parser, and for "toString" the [new]
    expression throws a TypeError. *)
Theorem create_inherited_names :
  ~ In "constructor" PdfParsers.Object_keys /\
  PdfParsers.create (Some "constructor") = Return PdfParsers.PlainObject /\
  ~ In "toString" PdfParsers.Object_keys /\
  PdfParsers.create (Some "toString") = Throw (Err "ParserClass is not a constructor") /\
  PdfParsers.not_found "toString" <> "ParserClass is not a constructor".
Proof.
  repeat split; try reflexivity; try discriminate.
  - cbn. intros [H | [H | []]]; discriminate.
  - cbn. intros [H | [H | []]]; discriminate.
Qed.

(** ** Selection of a parser by capabilities *)




(** ** The feedback search *)

Section FeedbackSearch.
Import Feedback.
Variable cosine_distance : vector -> vector -> Q.

(** C6, at the default setting of PostgreSQL.  The unqualified
    [query_embedding] of the statement names both the function's parameter
    and a column of [feedback]; with plpgsql.variable_conflict = error the
    call raises "column reference is ambiguous" for every table and every
    argument, so the function returns no row at all: not the rows whose
    similarity is above the threshold either. *)
Theorem match_feedback_raises_by_default (table : list feedback)
    (query_embedding_param : vector) (match_threshold : Q) (match_count : Z) :
  match_feedback_by_embedding cosine_distance error table
    query_embedding_param match_threshold match_count
  = Raise (ambiguous_column "query_embedding") /\
  forall rows,
    match_feedback_by_embedding cosine_distance error table
      query_embedding_param match_threshold match_count
    <> Rows rows.
Proof.
  split; [reflexivity|]. intros rows. discriminate.
Qed.

Lemma insert_by_distance_In x y l :
  In y (insert_by_distance x l) <-> y = x \/ In y l.
Proof.
  induction l as [|z l IH]; cbn; [intuition congruence|].
  destruct (Qle_bool (snd x) (snd z)); cbn; [intuition congruence|].
  rewrite IH. intuition congruence.
Qed.



Lemma order_by_distance_In y l : In y (order_by_distance l) <-> In y l.
Proof.
  induction l as [|x l IH]; cbn; [tauto|].
  rewrite insert_by_distance_In, IH. intuition congruence.
Qed.

Lemma firstn_In {A} (x : A) l : forall k, In x (firstn k l) -> In x l.
Proof.
  induction l as [|a l IH]; intros [|k]; cbn; try tauto.
  intros [-> | H]; [left; reflexivity | right; exact (IH _ H)].
Qed.



Lemma selected_In conflict q t table r :
  In r (selected cosine_distance conflict q t table) ->
  In (fst r) table /\
  where_clause cosine_distance conflict q t (fst r) = Some true /\
  distance cosine_distance conflict q (fst r) = Some (snd r).
Proof.
  induction table as [|row rest IH]; cbn [selected]; [contradiction|].
  destruct (where_clause cosine_distance conflict q t row) as [[|]|] eqn:W;
    try (intros H; destruct (IH H) as (? & ? & ?); repeat split; auto; right; assumption).
  destruct (distance cosine_distance conflict q row) as [d|] eqn:D;
    try (intros H; destruct (IH H) as (? & ? & ?); repeat split; auto; right; assumption).
  intros [<- | H].
  - cbn [fst snd]. repeat split; auto. left; reflexivity.
  - destruct (IH H) as (? & ? & ?); repeat split; auto; right; assumption.
Qed.



End FeedbackSearch.

(** ** The chunk statistics *)











(** ** The chunking parameters *)

Lemma number_or_truthy x d :
  number_truthy d = true -> number_truthy (number_or x d) = true.
Proof. unfold number_or. destruct (number_truthy x) eqn:E; auto. Qed.

Lemma number_or_falsy x d : number_truthy x = false -> number_or x d = d.
Proof. unfold number_or. intros ->. reflexivity. Qed.

Lemma truthy_not_zero n : number_truthy n = true -> n <> Num 0 /\ n <> NaN.
Proof. destruct n; simpl; try discriminate; intros H; split; try discriminate.
  intros [= ->]. discriminate. Qed.

Lemma parseInt_number s : parseInt s <> Infinity /\ parseInt s <> NegInfinity.
Proof. unfold parseInt. destruct (strip_sign _). destruct (strip_hex_prefix _).
  destruct (digits _ _ _); split; discriminate. Qed.

Lemma textSplitter_sizes form :
  splitter_chunkSize (textSplitter_of form) = chunkSize_of form /\
  splitter_chunkOverlap (textSplitter_of form) = chunkOverlap_of form.
Proof. unfold textSplitter_of.
  repeat match goal with |- context [if ?b then _ else _] => destruct b end; split; reflexivity. Qed.

(** C9.  In both endpoints the splitter is built with [chunkSize_of] and
    [chunkOverlap_of] of the form.  Neither is ever 0 or NaN: a field that
    parses to 0 or to NaN (an absent or empty field among them) is
    replaced by the default, 5000 for the chunk size and 500 for the
    overlap, and any other parsed value is kept. *)
Theorem chunk_parameters_never_zero (form : FormData) :
  let size := parseInt (as_string (chunkSize form)) in
  let overlap := parseInt (as_string (chunkOverlap form)) in
  (chunkSize_of form <> Num 0 /\ chunkSize_of form <> NaN) /\
  (chunkOverlap_of form <> Num 0 /\ chunkOverlap_of form <> NaN) /\
  (size = Num 0 \/ size = NaN -> chunkSize_of form = Num 5000) /\
  (overlap = Num 0 \/ overlap = NaN -> chunkOverlap_of form = Num 500) /\
  (size <> Num 0 -> size <> NaN -> chunkSize_of form = size) /\
  (overlap <> Num 0 -> overlap <> NaN -> chunkOverlap_of form = overlap) /\
  (chunkSize form = None \/ chunkSize form = Some "" -> chunkSize_of form = Num 5000) /\
  (chunkOverlap form = None \/ chunkOverlap form = Some "" -> chunkOverlap_of form = Num 500) /\
  splitter_chunkSize (textSplitter_of form) = chunkSize_of form /\
  splitter_chunkOverlap (textSplitter_of form) = chunkOverlap_of form.
Proof.
  intros size overlap. unfold chunkSize_of, chunkOverlap_of.
  fold size overlap.
  repeat split.
  all: try (apply truthy_not_zero, number_or_truthy; reflexivity).
  - intros [-> | ->]; reflexivity.
  - intros [-> | ->]; reflexivity.
  - intros H0 Hn. unfold number_or. destruct size as [z| | |]; simpl; try congruence.
    destruct (Z.eqb_spec z 0); simpl; congruence.
  - intros H0 Hn. unfold number_or. destruct overlap as [z| | |]; simpl; try congruence.
    destruct (Z.eqb_spec z 0); simpl; congruence.
  - subst size. intros [-> | ->]; reflexivity.
  - subst overlap. intros [-> | ->]; reflexivity.
  - apply textSplitter_sizes.
  - apply textSplitter_sizes.
Qed.

(** ** The properties at concrete requests *)

Section Examples.
Import Scenario.

Lemma scenario_accepted (fs : list File) :
  fs <> [] -> accepted world (request fs (Some "{}")) (JObj []).
Proof. intros H. repeat split; [exact H | reflexivity..]. Defined.

Lemma scenario_report_yields (fs : list File) :
  yields world (request fs (Some "{}")) report report_parsed ten_chunks.
Proof. repeat split; reflexivity. Defined.

(** The example of the specification: one file, ten chunks, the embedding
    call of chunk #4 fails; the response reports 1 document and 9 chunks,
    and the rows of the nine other chunks are stored. *)
Lemma one_failed_chunk_is_skipped_example :
  Upload.response (Upload.POST world (request [report] (Some "{}"))) =
    {| status := 200;
       body := Upload.Success true 1 9 "Successfully processed 1 documents with 9 chunks" |} /\
  map chunk_id (Upload.stored (Upload.POST world (request [report] (Some "{}")))) =
    [1; 2; 3; 5; 6; 7; 8; 9; 10].
Proof.
  apply (one_failed_chunk_is_skipped world (request [report] (Some "{}")) (JObj [])
           report report_parsed ten_chunks 3).
  - apply scenario_accepted. discriminate.
  - reflexivity.
  - apply scenario_report_yields.
  - cbn. lia.
  - intros i chunk H.
    do 10 (destruct i as [|i];
           [ injection H as <-; split; intros Hi; try discriminate Hi;
             try (exfalso; apply Hi; reflexivity);
             [ first [ (eexists; split; [reflexivity | left; eexists; reflexivity])
                     | (do 2 eexists; repeat split; reflexivity) ] ]
           | ]).
    destruct i; discriminate H.
Defined.


(** C3, the claim as stated fails: of the two files of this accepted
    request one cannot be parsed; the response is success = true with
    documentsCount = 1, which is not the number of files of the request. *)
Lemma documentsCount_is_not_the_number_of_files :
  Upload.response (Upload.POST world (request [report; broken] (Some "{}"))) =
    {| status := 200;
       body := Upload.Success true 1 9 "Successfully processed 1 documents with 9 chunks" |} /\
  Z.of_nat (List.length (files (request [report; broken] (Some "{}")))) = 2 /\
  Upload.parsed_files (Upload.POST world (request [report; broken] (Some "{}"))) =
    ["report.pdf"; "broken.pdf"].
Proof. repeat split; reflexivity. Qed.

Lemma upload_counts_example :
  Upload.response (Upload.POST world (request [report; broken] (Some "{}"))) =
    {| status := 200;
       body := Upload.Success true 1 9 (Upload.completed 1 9) |}.
Proof.
  exact (upload_counts world (request [report; broken] (Some "{}")) (JObj [])
           (scenario_accepted [report; broken] ltac:(discriminate))).
Defined.



(** C2, the claim as stated fails: a preview request with a file and no
    metadata field is answered with HTTP 200 and the statistics, after its
    file was parsed. *)
Lemma preview_accepts_a_request_without_metadata :
  status (fst (Preview.POST world (request [report] None))) = 200 /\
  (exists stats,
     body (fst (Preview.POST world (request [report] None))) = Preview.Success true stats /\
     Preview.total_chunks stats = 10) /\
  snd (Preview.POST world (request [report] None)) = ["report.pdf"].
Proof.
  split; [reflexivity|]. split; [|reflexivity].
  eexists. split; reflexivity.
Qed.

Lemma preview_without_metadata_example :
  Preview.POST world (request [report] None) =
  Preview.POST world (request [report] (Some "{}")) /\
  Upload.POST world (request [report] None) =
    {| Upload.response := {| status := 400; body := Upload.Failure "Metadata is required" |};
       Upload.stored := [];
       Upload.parsed_files := [] |}.
Proof.
  destruct (preview_without_metadata world (request [report] None))
    as (Hsame & _ & Hupload).
  - discriminate.
  - reflexivity.
  - split; [|exact (Hupload eq_refl)].
    exact (Hsame "{}" (JObj []) eq_refl eq_refl).
Defined.


(** The statistics of four chunks of lengths 3, 2, 5 and 1: the mean 2.75
    is rounded to 3. *)
Example chunkStats_of_four_chunks :
  let stats := Preview.chunkStats ["abc"; "de"; "fghij"; "k"] 0 "pdf-parse" [] in
  Preview.total_chunks stats = 4 /\ Preview.avg_length stats = Num 3 /\
  Preview.min_length stats = Num 1 /\ Preview.max_length stats = Num 5.
Proof. repeat split; reflexivity. Qed.

(** Form fields and what the endpoints make of them. *)
Example chunkSize_fields :
  map (fun field => chunkSize_of {| files := []; metadata := None; splitterType := None;
                                    chunkSize := field; chunkOverlap := None;
                                    pdfParser := None |})
      [None; Some ""; Some "abc"; Some "0"; Some "-0"; Some "0x0"; Some " 800 "; Some "12.5";
       Some "-3"]
  = [Num 5000; Num 5000; Num 5000; Num 5000; Num 5000; Num 5000; Num 800; Num 12; Num (-3)].
Proof. reflexivity. Qed.

(** Selection by capabilities over the two registered backends. *)
Example getBestParser_examples :
  PdfParsers.getBestParser (Some [(PdfParsers.HandleEncrypted, true)]) = "mock" /\
  PdfParsers.getBestParser (Some [(PdfParsers.OcrCapability, true)]) = "pdf-parse" /\
  PdfParsers.getBestParser (Some [(PdfParsers.HandleEncrypted, false)]) = "pdf-parse" /\
  PdfParsers.getBestParser (Some []) = "pdf-parse" /\
  PdfParsers.getBestParser None = "pdf-parse".
Proof. repeat split; reflexivity. Qed.

(** The feedback search on four stored rows, threshold 0.8, with the name
    resolved to the parameter: only row "a" is returned.  With the name
    resolved to the column every row is compared with itself: row "d",
    whose similarity to the input vector is 0, is returned with
    similarity 1. *)
Example match_feedback_resolutions :
  map (fun r => (Feedback.m_id r, Feedback.similarity r))
      match Feedback.match_feedback_by_embedding discrete Feedback.use_variable
              feedback_table [1%Q; 0%Q] (8 # 10) 5 with
      | Feedback.Rows rows => rows
      | Feedback.Raise _ => []
      end
  = [("a", 1 - 0)%Q] /\
  map (fun r => (Feedback.m_id r, Feedback.similarity r))
      match Feedback.match_feedback_by_embedding discrete Feedback.use_column
              feedback_table [1%Q; 0%Q] (8 # 10) 5 with
      | Feedback.Rows rows => rows
      | Feedback.Raise _ => []
      end
  = [("a", 1 - 0)%Q; ("d", 1 - 0)%Q] /\
  Feedback.match_feedback_by_embedding discrete Feedback.error
    feedback_table [1%Q; 0%Q] (8 # 10) 5
  = Feedback.Raise (Feedback.ambiguous_column "query_embedding").
Proof. repeat split; reflexivity. Qed.

End Examples.

(* ================================================================== *)
(** * Further properties *)
(* ================================================================== *)

Import Behaviour.

(** ** The parsers *)

Lemma try_parse_returns pdf elapsed p buffer r :
  PdfParsers.try_parse pdf elapsed p buffer = Return r ->
  In p PdfParsers.Object_keys /\ PdfParsers.parserUsed r = p.
Proof.
  unfold PdfParsers.try_parse, PdfParsers.create, PdfParsers.lookup.
  cbn [PdfParsers.own_class PdfParsers.AVAILABLE_PARSERS PdfParsers.Object_keys map fst].
  destruct (String.eqb_spec p "pdf-parse") as [-> | _].
  { cbn [PdfParsers.parse]. destruct (pdf buffer); [|discriminate].
    intros [= <-]. split; [left|]; reflexivity. }
  destruct (String.eqb_spec p "mock") as [-> | _].
  { cbn [PdfParsers.parse]. intros [= <-]. split; [right; left|]; reflexivity. }
  destruct (String.eqb p "constructor"); [discriminate|].
  destruct (String.eqb p "__proto__"); [discriminate|].
  destruct (existsb (String.eqb p) PdfParsers.Object_prototype_methods); discriminate.
Qed.

Lemma try_parse_unregistered pdf elapsed p buffer :
  ~ In p PdfParsers.Object_keys ->
  exists e, PdfParsers.try_parse pdf elapsed p buffer = Throw e.
Proof.
  intros Hp. destruct (PdfParsers.try_parse pdf elapsed p buffer) as [r|e] eqn:E.
  - exfalso. apply Hp. exact (proj1 (try_parse_returns _ _ _ _ _ E)).
  - exists e. reflexivity.
Qed.

Lemma strlen_zero s : strlen s = 0 -> s = "".
Proof. destruct s; [reflexivity|]. unfold strlen. cbn [String.length]. lia. Qed.

(** X3.  With fallbackToMock set, parsePDF never throws, whatever the
    parser name, the requirements and the pdf-parse library do; the result
    comes from a registered parser: the one that was asked for, or the
    mock parser. *)
Theorem parsePDF_fallback_always_returns
    (pdf : Buffer -> completion PdfParsers.PdfData) (elapsed : Buffer -> Z)
    (buffer : Buffer) (parser : option string)
    (requirements : option PdfParsers.Requirements) :
  let asked := match parser, requirements with
               | Some p, _ => p
               | None, Some r => PdfParsers.getBestParser (Some r)
               | None, None => "pdf-parse"
               end in
  exists result,
    PdfParsers.parsePDF pdf elapsed buffer
      (Some {| PdfParsers.parser := parser;
               PdfParsers.fallbackToMock := Some true;
               PdfParsers.requirements := requirements |}) = Return result /\
    In (PdfParsers.parserUsed result) PdfParsers.Object_keys /\
    (PdfParsers.parserUsed result = asked \/ PdfParsers.parserUsed result = "mock").
Proof.
  intros asked. unfold PdfParsers.parsePDF.
  assert (E : match parser with
              | Some p => p
              | None => match requirements with
                        | Some r => PdfParsers.getBestParser (Some r)
                        | None => "pdf-parse"
                        end
              end = asked).
  { subst asked. destruct parser, requirements; reflexivity. }
  destruct parser as [p|]; [|destruct requirements as [r|]]; cbn [PdfParsers.parser
    PdfParsers.requirements PdfParsers.fallbackToMock] in *; rewrite ?E.
  all: destruct (PdfParsers.try_parse pdf elapsed asked buffer) as [res|e] eqn:T;
    [ destruct (try_parse_returns _ _ _ _ _ T) as [Hin Hused];
      exists res; rewrite Hused; auto
    | cbn [andb];
      destruct (String.eqb_spec asked "mock") as [Hm | _];
      [ rewrite Hm in T; discriminate T
      | cbn [negb]; eexists; split; [reflexivity|];
        split; [right; left; reflexivity | right; reflexivity] ] ].
Qed.

(** X4.  Without fallback, parsePDF with the mock parser returns the mock
    text; with pdf-parse it returns the text of the library when the
    library returns, and throws the library's error wrapped as
    "PDF-Parse failed: ..." when it throws; with a name that is not
    registered it always throws. *)
Theorem parsePDF_without_fallback
    (pdf : Buffer -> completion PdfParsers.PdfData) (elapsed : Buffer -> Z)
    (buffer : Buffer) (p : string) (requirements : option PdfParsers.Requirements) :
  let result :=
    PdfParsers.parsePDF pdf elapsed buffer
      (Some {| PdfParsers.parser := Some p;
               PdfParsers.fallbackToMock := Some false;
               PdfParsers.requirements := requirements |}) in
  (p = "mock" ->
   exists r, result = Return r /\ PdfParsers.text r = PdfParsers.mock_text buffer /\
             PdfParsers.parserUsed r = "mock") /\
  (p = "pdf-parse" ->
   match pdf buffer with
   | Return data =>
       exists r, result = Return r /\ PdfParsers.text r = PdfParsers.data_text data /\
                 PdfParsers.parseTime r = elapsed buffer /\
                 PdfParsers.parserUsed r = "pdf-parse"
   | Throw e => result = Throw (Err ("PDF-Parse failed: " ++ message_of e))
   end) /\
  (~ In p PdfParsers.Object_keys -> exists e, result = Throw e).
Proof.
  intros result. subst result. unfold PdfParsers.parsePDF.
  cbn [PdfParsers.parser PdfParsers.fallbackToMock andb].
  split; [|split].
  - intros ->. eexists. split; [reflexivity|]. split; reflexivity.
  - intros ->. unfold PdfParsers.try_parse. cbn [PdfParsers.create PdfParsers.lookup
      PdfParsers.own_class PdfParsers.AVAILABLE_PARSERS String.eqb Ascii.eqb Bool.eqb
      PdfParsers.parse].
    change (PdfParsers.try_parse pdf elapsed "pdf-parse" buffer)
      with (PdfParsers.parse pdf elapsed PdfParsers.PDFParseParser buffer).
    cbn [PdfParsers.parse]. destruct (pdf buffer) as [data|e]; [|reflexivity].
    eexists. split; [reflexivity|]. cbn [PdfParsers.text PdfParsers.parseTime
      PdfParsers.parserUsed PdfParsers.name].
    split; [|split; reflexivity].
    destruct (Z.eqb_spec (strlen (PdfParsers.data_text data)) 0) as [Z0|]; [|reflexivity].
    symmetry. apply strlen_zero, Z0.
  - intros Hp. destruct (try_parse_unregistered pdf elapsed p buffer Hp) as (e & ->).
    exists e. reflexivity.
Qed.

Lemma trimEnd_cons_not_empty c s : trimEnd (String c s) = "" -> isWhiteSpace c = true.
Proof.
  cbn [trimEnd]. destruct (trimEnd s); [|discriminate].
  destruct (isWhiteSpace c); [reflexivity | discriminate].
Qed.

Lemma strlen_cons c s : (strlen (String c s) =? 0) = false.
Proof. unfold strlen. cbn [String.length]. apply Z.eqb_neq. lia. Qed.

(** A text that starts with a character that is not white space is not
    blank. *)
Lemma blank_cons c s : isWhiteSpace c = false -> blank (String c s) = false.
Proof.
  intros H. unfold blank, trim. cbn [trimStart]. rewrite H, strlen_cons.
  destruct (trimEnd (String c s)) eqn:T.
  - apply trimEnd_cons_not_empty in T. congruence.
  - apply strlen_cons.
Qed.

(** X6.  The mock parser returns for every buffer, without calling the
    pdf-parse library, and its text is never blank: a file parsed by the
    mock parser is never skipped for want of text. *)
Theorem mock_parser_text_is_never_blank
    (pdf : Buffer -> completion PdfParsers.PdfData) (elapsed : Buffer -> Z)
    (buffer : Buffer) :
  exists result,
    PdfParsers.parse pdf elapsed PdfParsers.MockPDFParser buffer = Return result /\
    PdfParsers.parserUsed result = "mock" /\
    blank (PdfParsers.text result) = false.
Proof.
  eexists. split; [reflexivity|]. split; [reflexivity|].
  cbn [PdfParsers.text]. unfold PdfParsers.mock_text. cbn [append].
  apply blank_cons. reflexivity.
Qed.

Lemma meets_pdf_parse r :
  PdfParsers.meets
    {| PdfParsers.info_name := "pdf-parse";
       PdfParsers.info_description := PdfParsers.description PdfParsers.PDFParseParser;
       PdfParsers.features := PdfParsers.supportsFeatures PdfParsers.PDFParseParser |} r
  = negb (requires PdfParsers.HandleEncrypted r || requires_unsupported r).
Proof.
  unfold PdfParsers.meets, requires_unsupported, requires.
  induction r as [|[f b] r IH]; [reflexivity|].
  cbn [forallb existsb fst snd]. rewrite IH.
  destruct f, b; cbn;
    repeat match goal with |- context [existsb ?g r] => destruct (existsb g r) end;
    reflexivity.
Qed.

Lemma meets_mock r :
  PdfParsers.meets
    {| PdfParsers.info_name := "mock";
       PdfParsers.info_description := PdfParsers.description PdfParsers.MockPDFParser;
       PdfParsers.features := PdfParsers.supportsFeatures PdfParsers.MockPDFParser |} r
  = negb (requires_unsupported r).
Proof.
  unfold PdfParsers.meets, requires_unsupported, requires.
  induction r as [|[f b] r IH]; [reflexivity|].
  cbn [forallb existsb fst snd]. rewrite IH.
  destruct f, b; cbn;
    repeat match goal with |- context [existsb ?g r] => destruct (existsb g r) end;
    reflexivity.
Qed.

Lemma requires_In f r : requires f r = true -> In (f, true) r.
Proof.
  unfold requires. intros H. apply existsb_exists in H.
  destruct H as ([g b] & Hin & Hb). cbn [fst snd] in Hb.
  apply andb_true_iff in Hb. destruct Hb as [Hf ->].
  destruct f, g; try discriminate Hf; exact Hin.
Qed.

(** X5.  Over the two registered backends, getBestParser answers "mock"
    exactly when handleEncrypted is required and none of handleImages,
    preserveFormatting and ocrCapability is; in every other case it
    answers "pdf-parse".  When one of these three is required, no
    registered backend advertises it: the answer is the default, which
    does not meet the requirements. *)
Theorem getBestParser_by_requirements (r : PdfParsers.Requirements) :
  PdfParsers.getBestParser (Some r) =
    (if requires_unsupported r then "pdf-parse"
     else if requires PdfParsers.HandleEncrypted r then "mock"
     else "pdf-parse") /\
  (requires_unsupported r = true ->
   Forall (fun p => ~ satisfies p r) PdfParsers.getAvailableParsers).
Proof.
  split.
  - cbn [PdfParsers.getBestParser PdfParsers.getAvailableParsers
         PdfParsers.AVAILABLE_PARSERS map fst snd PdfParsers.first_meeting].
    rewrite meets_pdf_parse, meets_mock.
    destruct (requires PdfParsers.HandleEncrypted r), (requires_unsupported r); reflexivity.
  - intros H. unfold requires_unsupported in H.
    assert (exists f, In (f, true) r /\
                      forall c, PdfParsers.feature (PdfParsers.supportsFeatures c) f = false)
      as (f & Hin & Hno).
    { apply orb_true_iff in H. destruct H as [H | H];
        [apply orb_true_iff in H; destruct H as [H | H]|];
        apply requires_In in H; eexists; (split; [exact H|]); intros []; reflexivity. }
    repeat constructor; intros S; specialize (S f Hin);
      cbn [PdfParsers.features] in S; rewrite Hno in S; discriminate S.
Qed.

(** ** The upload endpoint *)

(** X7.  The upload endpoint answers with status 200, 400 or 500.  It
    answers 200 exactly for the requests that pass its checks; every other
    response is an error body, and then no row was stored and no file was
    handed to the parser. *)
Theorem upload_rejection_has_no_effect (w : World) (form : FormData) :
  (status (Upload.response (Upload.POST w form)) = 200 /\
   (exists success documentsCount chunksCount message,
      body (Upload.response (Upload.POST w form))
      = Upload.Success success documentsCount chunksCount message) /\
   exists metadata, accepted w form metadata) \/
  ((status (Upload.response (Upload.POST w form)) = 400 \/
    status (Upload.response (Upload.POST w form)) = 500) /\
   (exists error, body (Upload.response (Upload.POST w form)) = Upload.Failure error) /\
   (forall metadata, ~ accepted w form metadata) /\
   Upload.stored (Upload.POST w form) = [] /\
   Upload.parsed_files (Upload.POST w form) = []).
Proof.
  unfold Upload.POST, accepted.
  destruct (createServerSupabaseClient w) as [e|] eqn:C.
  { right. cbn. repeat split; eauto. intros m (H & _). discriminate H. }
  destruct (files form) as [|f fs] eqn:F.
  { right. cbn. repeat split; eauto. intros m (_ & H & _). congruence. }
  destruct (missing (metadata form)) eqn:M.
  { right. cbn. repeat split; eauto. intros m (_ & _ & H & _). discriminate H. }
  destruct (JSON_parse w (as_string (metadata form))) as [m|e] eqn:J.
  2:{ right. cbn. repeat split; eauto. intros m (_ & _ & _ & H & _). discriminate H. }
  destruct (new_TextSplitter w (textSplitter_of form)) as [e|] eqn:S.
  { right. cbn. repeat split; eauto. intros m' (_ & _ & _ & _ & H). discriminate H. }
  left. cbn. split; [reflexivity|]. split; [eauto 6|].
  exists m. repeat split; congruence.
Qed.

Lemma chunk_rows_ascending w metadata fi file pdfResult n chunks : forall i,
  StronglySorted Z.lt (map chunk_id (chunk_rows w metadata fi file pdfResult n i chunks)) /\
  Forall (fun x => Z.of_nat i < x)
         (map chunk_id (chunk_rows w metadata fi file pdfResult n i chunks)) /\
  Forall (fun row => source row = file_name file)
         (chunk_rows w metadata fi file pdfResult n i chunks).
Proof.
  induction chunks as [|c rest IH]; intros i; cbn [chunk_rows].
  - repeat split; constructor.
  - destruct (IH (S i)) as (Hs & Hlow & Hsrc).
    assert (Hlow' : Forall (fun x => Z.of_nat i < x)
                      (map chunk_id (chunk_rows w metadata fi file pdfResult n (S i) rest))).
    { eapply Forall_impl; [|exact Hlow]. cbn beta. intros; lia. }
    destruct (chunk_row w metadata fi file pdfResult n i c) as [row|] eqn:E.
    + destruct (chunk_row_some _ _ _ _ _ _ _ _ _ E) as (emb & ->).
      cbn [map Upload.row_of chunk_id]. split; [|split].
      * constructor; [exact Hs|].
        eapply Forall_impl; [|exact Hlow]. cbn beta. intros; lia.
      * constructor; [lia | exact Hlow'].
      * constructor; [reflexivity | exact Hsrc].
    + auto.
Qed.

Lemma file_rows_ascending w form metadata fi file :
  StronglySorted Z.lt (map chunk_id (file_rows w form metadata fi file)) /\
  Forall (fun row => source row = file_name file) (file_rows w form metadata fi file).
Proof.
  unfold file_rows.
  destruct (parse_file w form file) as [pdfResult|]; [|split; constructor].
  destruct (blank (PdfParsers.text pdfResult)); [split; constructor|].
  destruct (splitText w (textSplitter_of form) (PdfParsers.text pdfResult)) as [chunks|];
    [|split; constructor].
  destruct (chunk_rows_ascending w metadata fi file pdfResult
              (Z.of_nat (List.length chunks)) chunks 0) as (Hs & _ & Hsrc).
  split; assumption.
Qed.

Lemma all_rows_groups w form metadata todo : forall fi,
  all_rows w form metadata fi todo =
  List.concat (map (fun p => file_rows w form metadata (fst p) (snd p)) (numbered fi todo)).
Proof.
  induction todo as [|file rest IH]; intros fi; [reflexivity|].
  cbn [all_rows numbered map List.concat fst snd]. rewrite IH. reflexivity.
Qed.

(** X8.  The rows stored by an accepted upload request come in the order
    of the work: one group of rows per file, in the order of the files of
    the request; the rows of a group carry the name of their file as
    [source], and their [chunk_id] increases strictly along the group. *)
Theorem stored_rows_follow_files_and_chunks
    (w : World) (form : FormData) (metadata : jsval) :
  accepted w form metadata ->
  exists groups : list (list StoredChunkRecord),
    Upload.stored (Upload.POST w form) = List.concat groups /\
    Forall2 (fun file group =>
               Forall (fun row => source row = file_name file) group /\
               StronglySorted Z.lt (map chunk_id group))
            (files form) groups.
Proof.
  intros Hacc. rewrite (POST_accepted w form metadata Hacc). cbv zeta.
  cbn [Upload.stored].
  exists (map (fun p => file_rows w form metadata (fst p) (snd p))
              (numbered 0 (files form))).
  split; [apply all_rows_groups|].
  generalize 0%nat. induction (files form) as [|file rest IH]; intros fi.
  - constructor.
  - cbn [numbered map fst snd]. constructor; [|apply IH].
    destruct (file_rows_ascending w form metadata fi file). split; assumption.
Qed.

Lemma chunk_rows_null w fi file pdfResult n chunks : forall i,
  chunk_rows w JNull fi file pdfResult n i chunks = [].
Proof. induction chunks as [|c rest IH]; intros i; [reflexivity | apply IH]. Qed.

Lemma all_rows_null w form todo : forall fi, all_rows w form JNull fi todo = [].
Proof.
  induction todo as [|file rest IH]; intros fi; [reflexivity|].
  cbn [all_rows]. rewrite IH, app_nil_r. unfold file_rows.
  destruct (parse_file w form file) as [pdfResult|]; [|reflexivity].
  destruct (blank (PdfParsers.text pdfResult)); [reflexivity|].
  destruct (splitText w (textSplitter_of form) (PdfParsers.text pdfResult));
    [apply chunk_rows_null | reflexivity].
Qed.

(** X9.  When the metadata field is the JSON text of null, the request
    passes the checks, but building the text to embed throws for every
    chunk (a property of null is read) and the exception is caught: no row
    is stored, and the response is still success = true, with chunksCount
    = 0 and the files that were parsed and split counted as documents. *)
Theorem null_metadata_stores_nothing (w : World) (form : FormData) :
  accepted w form JNull ->
  let documentsCount := Z.of_nat (List.length (filter (processed w form) (files form))) in
  Upload.stored (Upload.POST w form) = [] /\
  Upload.response (Upload.POST w form) =
    {| status := 200;
       body := Upload.Success true documentsCount 0 (Upload.completed documentsCount 0) |}.
Proof.
  intros Hacc. rewrite (POST_accepted w form JNull Hacc). cbv zeta.
  cbn [Upload.stored Upload.response]. rewrite all_rows_null. split; reflexivity.
Qed.

Lemma parse_file_registered w form file pdfResult :
  parse_file w form file = Return pdfResult ->
  In (PdfParsers.parserUsed pdfResult) PdfParsers.Object_keys.
Proof.
  unfold parse_file, PdfParsers.parsePDF. cbn [PdfParsers.parser PdfParsers.fallbackToMock].
  destruct (PdfParsers.try_parse (pdf w) (elapsed w) (pdfParser_of form) (file_bytes file))
    as [r|e] eqn:T.
  - intros [= <-]. destruct (try_parse_returns _ _ _ _ _ T) as [Hin ->]. exact Hin.
  - destruct (_ && _); [|discriminate].
    intros T'. destruct (try_parse_returns _ _ _ _ _ T') as [Hin ->]. exact Hin.
Qed.

Lemma or_truthy a b : truthy b = true -> truthy (or a b) = true.
Proof. unfold or. destruct (truthy a) eqn:E; auto. Qed.

Lemma or_null a : null_or_truthy (or a JNull).
Proof. unfold null_or_truthy, or. destruct (truthy a) eqn:E; auto. Qed.

(** X10.  Every row stored by the upload endpoint belongs to a file of the
    request that was parsed: its [source] and the [filename] of its
    metadata object are the name of the file, [file_size] its size;
    [parser_used], [parse_time] and [pdf_metadata] are those of the parse
    result, and the parser is a registered one.  [source_type] is
    "pdf_upload"; [doc_type] is never empty (it defaults to "Book");
    [author], [genre], [topic], [difficulty], [tags] and [summary] are null
    or a truthy value, never undefined, empty, 0 or false. *)
Theorem stored_row_provenance (w : World) (form : FormData) (row : StoredChunkRecord) :
  In row (Upload.stored (Upload.POST w form)) ->
  exists file pdfResult,
    In file (files form) /\
    parse_file w form file = Return pdfResult /\
    In (PdfParsers.parserUsed pdfResult) PdfParsers.Object_keys /\
    source row = file_name file /\
    own "filename" (row_metadata row) = Some (JStr (file_name file)) /\
    own "file_size" (row_metadata row) = Some (JNum (file_size file)) /\
    own "parser_used" (row_metadata row) = Some (JStr (PdfParsers.parserUsed pdfResult)) /\
    own "parse_time" (row_metadata row) = Some (JNum (PdfParsers.parseTime pdfResult)) /\
    own "pdf_metadata" (row_metadata row) = Some (PdfParsers.metadata pdfResult) /\
    source_type row = "pdf_upload" /\
    truthy (doc_type row) = true /\
    null_or_truthy (author row) /\ null_or_truthy (genre row) /\
    null_or_truthy (topic row) /\ null_or_truthy (difficulty row) /\
    null_or_truthy (tags row) /\ null_or_truthy (summary row).
Proof.
  intros Hin.
  destruct (POST_accepted_or_empty w form) as [[metadata Hacc] | Hnil].
  2:{ rewrite Hnil in Hin. contradiction. }
  rewrite (POST_accepted w form metadata Hacc) in Hin. cbn [Upload.stored] in Hin.
  destruct (all_rows_In _ _ _ _ _ _ Hin) as (file & fi & Hfile & Hrow).
  destruct (file_rows_In _ _ _ _ _ _ Hrow)
    as (pdfResult & chunks & i & emb & (Hparse & _ & _) & _ & E).
  exists file, pdfResult. rewrite E.
  cbn [Upload.row_of source row_metadata source_type doc_type author genre topic
       difficulty tags summary].
  split; [exact Hfile|]. split; [exact Hparse|].
  split; [exact (parse_file_registered _ _ _ _ Hparse)|].
  split; [reflexivity|].
  repeat (split; [rewrite ?own_set_other by reflexivity; apply own_set_same|]).
  split; [reflexivity|]. split; [apply or_truthy; reflexivity|].
  repeat split; apply or_null.
Qed.

Lemma own_absent k (o : obj) : ~ In k (map fst o) -> own k o = None.
Proof.
  induction o as [|[k' v] r IH]; cbn; [reflexivity|]. intros H.
  destruct (String.eqb_spec k k') as [-> | _]; [tauto|]. apply IH. tauto.
Qed.

Lemma own_assign k (o : obj) : forall acc,
  NoDup (map fst o) ->
  own k (assign acc o) = match own k o with Some v => Some v | None => own k acc end.
Proof.
  induction o as [|[k' v'] r IH]; intros acc Hnd; [reflexivity|].
  inversion Hnd as [|? ? Hnot Hnd']; subst.
  unfold assign in *. cbn [fold_left fst snd own]. rewrite IH by assumption.
  destruct (String.eqb_spec k k') as [-> | Hne].
  - rewrite (own_absent _ _ Hnot). apply own_set_same.
  - destruct (own k r); [reflexivity|]. apply own_set_other.
    apply String.eqb_neq. exact Hne.
Qed.

(** X11.  The metadata object of a stored row carries the user's metadata:
    for a metadata field that parses to an object, every key of it other
    than the seven keys the endpoint writes itself is found in the row
    with the user's value, and a key the user did not send is not there. *)
Theorem user_metadata_is_carried (w : World) (form : FormData) (o : obj)
    (row : StoredChunkRecord) (k : string) :
  accepted w form (JObj o) ->
  NoDup (map fst o) ->
  In row (Upload.stored (Upload.POST w form)) ->
  ~ In k reserved_keys ->
  own k (row_metadata row) = own k o.
Proof.
  intros Hacc Hnd Hin Hk.
  rewrite (POST_accepted w form (JObj o) Hacc) in Hin. cbn [Upload.stored] in Hin.
  destruct (all_rows_In _ _ _ _ _ _ Hin) as (file & fi & Hfile & Hrow).
  destruct (file_rows_In _ _ _ _ _ _ Hrow) as (pdfResult & chunks & i & emb & _ & _ & ->).
  cbn [Upload.row_of row_metadata spread].
  assert (Hne : forall k', In k' reserved_keys -> String.eqb k k' = false).
  { intros k' Hk'. apply String.eqb_neq. intros ->. exact (Hk Hk'). }
  rewrite !own_set_other by (apply Hne; cbn; tauto).
  rewrite own_assign by exact Hnd. destruct (own k o); reflexivity.
Qed.

(** ** The text that is embedded *)









(** ** The preview endpoint *)

Lemma preview_loop_collects w form todo : forall st,
  Forall (file_passes w form) todo ->
  Preview.process_files w form todo st = inl (collected w form st todo).
Proof.
  induction todo as [|file rest IH]; intros st Hpass.
  - unfold collected. cbn. rewrite !app_nil_r, Z.add_0_r. destruct st; reflexivity.
  - inversion Hpass as [|? ? (pdfResult & Hparse & Hrest) Hpass']; subst.
    cbn [Preview.process_files]. rewrite Hparse. cbv zeta.
    assert (Ht : (if PdfParsers.parseTime pdfResult =? 0 then 0
                  else PdfParsers.parseTime pdfResult) = PdfParsers.parseTime pdfResult).
    { destruct (Z.eqb_spec (PdfParsers.parseTime pdfResult) 0); congruence. }
    rewrite Ht. unfold collected, preview_chunks.
    cbn [flat_map parse_times files_metadata_of map].
    unfold file_chunks at 1. rewrite Hparse.
    destruct (blank (PdfParsers.text pdfResult)) eqn:B.
    + rewrite IH by assumption. unfold collected, preview_chunks.
      cbn [Preview.allChunks Preview.totalParseTime Preview.extractedMetadata
           Preview.parsed app].
      rewrite <- !app_assoc. cbn [app]. f_equal. f_equal. lia.
    + destruct Hrest as [Hb | (chunks & Hsplit)]; [congruence|]. rewrite Hsplit.
      rewrite IH by assumption. unfold collected, preview_chunks.
      cbn [Preview.allChunks Preview.totalParseTime Preview.extractedMetadata
           Preview.parsed app].
      rewrite <- !app_assoc. cbn [app]. f_equal. f_equal. lia.
Qed.

Lemma preview_loop_success w form todo : forall st st',
  Preview.process_files w form todo st = inl st' ->
  Forall (file_passes w form) todo.
Proof.
  induction todo as [|file rest IH]; intros st st' H; [constructor|].
  cbn [Preview.process_files] in H.
  destruct (parse_file w form file) as [pdfResult|] eqn:Hparse; [|discriminate].
  cbv zeta in H.
  destruct (blank (PdfParsers.text pdfResult)) eqn:B.
  - constructor; [|exact (IH _ _ H)]. exists pdfResult. auto.
  - destruct (splitText w (textSplitter_of form) (PdfParsers.text pdfResult))
      as [chunks|] eqn:Hsplit; [|discriminate].
    constructor; [|exact (IH _ _ H)]. exists pdfResult. eauto.
Qed.


Lemma preview_failure_body w form todo : forall st r parsed,
  Preview.process_files w form todo st = inr (r, parsed) ->
  exists msg, body r = Preview.Failure msg.
Proof.
  induction todo as [|file rest IH]; intros st r parsed P; [discriminate|].
  cbn [Preview.process_files] in P.
  destruct (parse_file w form file) as [pdfResult|]; [|injection P as <- _; cbn; eauto].
  cbv zeta in P. destruct (blank (PdfParsers.text pdfResult)); [exact (IH _ _ _ P)|].
  destruct (splitText w (textSplitter_of form) (PdfParsers.text pdfResult));
    [exact (IH _ _ _ P) | injection P as <- _; cbn; eauto].
Qed.

(** A success response comes from a loop that ran to its end. *)
Lemma preview_success_loop w form success stats :
  body (fst (Preview.POST w form)) = Preview.Success success stats ->
  Forall (file_passes w form) (files form) /\
  preview_chunks w form (files form) <> [] /\
  Preview.POST w form =
  ({| status := 200;
      body := Preview.Success true
                (Preview.chunkStats (preview_chunks w form (files form))
                   (parse_times w form (files form)) (pdfParser_of form)
                   (files_metadata_of w form (files form))) |},
   map file_name (files form)).
Proof.
  unfold Preview.POST.
  destruct (files form) as [|f fs] eqn:F; [discriminate|]. rewrite <- F.
  destruct (if missing (metadata form) then Return (JObj [])
            else JSON_parse w (as_string (metadata form))); [|discriminate].
  destruct (new_TextSplitter w (textSplitter_of form)); [discriminate|].
  destruct (Preview.process_files w form (files form) _) as [st | [r parsed]] eqn:P.
  - pose proof (preview_loop_success _ _ _ _ _ P) as Hpass.
    rewrite (preview_loop_collects w form (files form) _ Hpass) in P.
    injection P as <-. unfold collected.
    cbn [Preview.allChunks Preview.totalParseTime Preview.extractedMetadata
         Preview.parsed app]. rewrite Z.add_0_l.
    destruct (preview_chunks w form (files form)) as [|c cs] eqn:C; [discriminate|].
    intros _. repeat split; [exact Hpass | discriminate].
  - cbn [fst]. destruct (preview_failure_body _ _ _ _ _ _ P) as (msg & ->). discriminate.
Qed.

(** X15.  A success response of the preview endpoint means that no file
    failed: every file of the request passed the parser and the splitter
    and was handed to the parser, the status is 200, [success] is true,
    there is at least one chunk, and the statistics are those of the
    chunks of all the files. *)
Theorem preview_success_means_no_file_failed (w : World) (form : FormData)
    (success : bool) (stats : Preview.ChunkStats) :
  body (fst (Preview.POST w form)) = Preview.Success success stats ->
  success = true /\
  status (fst (Preview.POST w form)) = 200 /\
  Forall (file_passes w form) (files form) /\
  snd (Preview.POST w form) = map file_name (files form) /\
  preview_chunks w form (files form) <> [] /\
  stats = Preview.chunkStats (preview_chunks w form (files form))
            (parse_times w form (files form)) (pdfParser_of form)
            (files_metadata_of w form (files form)).
Proof.
  intros H. destruct (preview_success_loop w form success stats H) as (Hpass & Hne & E).
  rewrite E in H |- *. cbn [fst snd body status] in *.
  injection H as <- <-. repeat split; assumption.
Qed.








(** ** The feedback search, once the name is resolved *)

Section FeedbackSearchMore.
Import Feedback.
Variable cosine_distance : vector -> vector -> Q.





Lemma selected_use_column q1 q2 t table :
  selected cosine_distance use_column q1 t table =
  selected cosine_distance use_column q2 t table.
Proof.
  induction table as [|row rest IH]; [reflexivity|].
  cbn [selected]. rewrite IH. reflexivity.
Qed.

(** X19.  With the name resolved to the column (variable_conflict =
    use_column) the input vector plays no part: the search gives the same
    result for any two input vectors, and the similarity of every returned
    row is that of its own embedding with itself. *)
Theorem match_feedback_use_column_ignores_the_input (table : list feedback)
    (q1 q2 : vector) (match_threshold : Q) (match_count : Z) :
  match_feedback_by_embedding cosine_distance use_column table q1
    match_threshold match_count
  = match_feedback_by_embedding cosine_distance use_column table q2
      match_threshold match_count /\
  forall rows,
    match_feedback_by_embedding cosine_distance use_column table q1
      match_threshold match_count = Rows rows ->
    Forall (fun r => exists row v,
                       In row table /\ query_embedding row = Some v /\
                       m_id r = id row /\
                       similarity r = (1 - cosine_distance v v)%Q) rows.
Proof.
  split.
  - unfold match_feedback_by_embedding. rewrite (selected_use_column q1 q2). reflexivity.
  - unfold match_feedback_by_embedding.
    destruct (match_count <? 0); [discriminate|]. intros rows [= <-].
    apply Forall_forall. intros r Hr. apply in_map_iff in Hr.
    destruct Hr as (x & <- & Hx).
    apply firstn_In, order_by_distance_In, selected_In in Hx.
    destruct Hx as (Hin & _ & Hd). unfold distance, right_operand in Hd.
    destruct (query_embedding (fst x)) as [v|] eqn:V; [|discriminate].
    injection Hd as Hd. exists (fst x), v. cbn [project m_id similarity].
    rewrite <- Hd. auto.
Qed.

End FeedbackSearchMore.

(** ** The feedback table, its views and the setup test *)

Section FeedbackViews.
Import Feedback FeedbackSchema.

(** Comparisons of string literals, decided. *)
Ltac literal_eqb :=
  repeat match goal with
         | |- context [String.eqb ?a ?b] =>
             let v := eval vm_compute in (String.eqb a b) in
             change (String.eqb a b) with v
         end;
  cbv iota.

Lemma COUNT_cons p row rows :
  COUNT p (row :: rows) = (if p row then 1 else 0) + COUNT p rows.
Proof. unfold COUNT. cbn [filter]. destruct (p row); cbn [List.length]; lia. Qed.

Lemma COUNT_bounds p rows : 0 <= COUNT p rows <= Z.of_nat (List.length rows).
Proof. unfold COUNT. pose proof (filter_length_le p rows). lia. Qed.

(** X20.  On a table whose rows pass the check on feedback_type, the four
    counts of feedback_stats add up to total_feedback, which is the number
    of rows; rated_responses lies between 0 and total_feedback. *)
Theorem feedback_stats_counts_add_up (table : list feedback) :
  Forall (fun row => feedback_type_check row = true) table ->
  total_feedback (feedback_stats table) = Z.of_nat (List.length table) /\
  helpful_count (feedback_stats table) + not_helpful_count (feedback_stats table)
  + partial_count (feedback_stats table) + detailed_count (feedback_stats table)
  = total_feedback (feedback_stats table) /\
  0 <= rated_responses (feedback_stats table) <= total_feedback (feedback_stats table).
Proof.
  intros Hc. unfold feedback_stats.
  cbn [total_feedback helpful_count not_helpful_count partial_count detailed_count
       rated_responses].
  assert (Htotal : COUNT (fun _ => true) table = Z.of_nat (List.length table)).
  { clear Hc. induction table as [|row rest IH]; [reflexivity|].
    rewrite COUNT_cons, IH. cbn [List.length]. lia. }
  split; [exact Htotal|]. split.
  - clear Htotal. induction Hc as [|row rest Hrow Hrest IH]; [reflexivity|].
    rewrite !COUNT_cons. unfold has_type at 1 3 5 7.
    unfold feedback_type_check, feedback_types in Hrow. cbn [existsb] in Hrow.
    destruct (String.eqb_spec (feedback_type row) "helpful") as [-> | _];
      [literal_eqb; lia|].
    destruct (String.eqb_spec (feedback_type row) "not_helpful") as [-> | _];
      [literal_eqb; lia|].
    destruct (String.eqb_spec (feedback_type row) "partial") as [-> | _];
      [literal_eqb; lia|].
    destruct (String.eqb_spec (feedback_type row) "detailed") as [_ | _];
      [lia | discriminate Hrow].
  - rewrite Htotal. apply COUNT_bounds.
Qed.






Variable DATE : Z -> Z.









(** X23.  Run with a fresh key, the setup test reports success and leaves
    the table without its test row and without any row whose chat_id is
    'test-setup': rows that had this chat_id before the test are deleted
    with the test row, every other row stays, in the same order.  With a
    key that is already in the table the insert fails and the block is
    aborted. *)
Theorem setup_test_deletes_test_setup_rows (uuid : string) (now : Z)
    (table : list feedback) :
  (~ In uuid (map id table) ->
   setup_test uuid now table =
   inl (filter (fun row => negb (is_test_setup row)) table,
        [setup_completed; ready_to_use; test_record_cleaned_up;
         available_views; available_functions])) /\
  (In uuid (map id table) -> setup_test uuid now table = inr unique_violation).
Proof.
  unfold setup_test, insert_row.
  change (id (test_row uuid now)) with uuid.
  change (feedback_type_check (test_row uuid now) && rating_check (test_row uuid now))
    with true.
  cbv iota.
  destruct (existsb (fun r => String.eqb (id r) uuid) table) eqn:X.
  - split; [|reflexivity]. intros Hnot. exfalso. apply Hnot.
    apply existsb_exists in X. destruct X as (r & Hr & E).
    apply String.eqb_eq in E. subst uuid. apply in_map. exact Hr.
  - split.
    + intros _. rewrite existsb_app, filter_app.
      change (existsb is_test_setup [test_row uuid now]) with true.
      change (filter (fun row => negb (is_test_setup row)) [test_row uuid now])
        with (@nil feedback).
      rewrite orb_true_r, app_nil_r. reflexivity.
    + intros Hin. exfalso. apply in_map_iff in Hin. destruct Hin as (r & E & Hr).
      assert (existsb (fun r => String.eqb (id r) uuid) table = true); [|congruence].
      apply existsb_exists. exists r. split; [exact Hr|]. apply String.eqb_eq, E.
Qed.

End FeedbackViews.

(** ** The further properties at concrete inputs *)

Section MoreExamples.
Import Scenario Scenario2.

Lemma create_registered_example :
  exists c, PdfParsers.create (Some "mock") = Return (PdfParsers.Instance c) /\
            PdfParsers.name c = "mock".
Proof. apply (create_registered "mock"). right. left. reflexivity. Defined.

Lemma not_registered (p : string) :
  String.eqb p "pdf-parse" = false -> String.eqb p "mock" = false ->
  ~ In p PdfParsers.Object_keys.
Proof.
  intros H1 H2 [E | [E | []]]; subst p; discriminate.
Defined.

Lemma create_unknown_example :
  PdfParsers.create (Some "pdfjs") =
  Throw (Err "Parser 'pdfjs' not found. Available parsers: pdf-parse, mock").
Proof.
  apply (create_unknown "pdfjs").
  - apply not_registered; reflexivity.
  - discriminate.
  - discriminate.
  - cbn. intros H. repeat (destruct H as [H | H]; [discriminate H|]). exact H.
Defined.

Lemma stored_rows_follow_files_and_chunks_example :
  exists groups : list (list StoredChunkRecord),
    Upload.stored (Upload.POST world (request [report; broken] (Some "{}")))
    = List.concat groups /\
    Forall2 (fun file group =>
               Forall (fun row => source row = file_name file) group /\
               StronglySorted Z.lt (map chunk_id group))
            [report; broken] groups.
Proof.
  exact (stored_rows_follow_files_and_chunks world (request [report; broken] (Some "{}"))
           (JObj []) (scenario_accepted [report; broken] ltac:(discriminate))).
Defined.

Lemma null_metadata_accepted :
  accepted null_metadata (request [report] (Some "null")) JNull.
Proof. repeat split; try reflexivity. discriminate. Defined.

Lemma null_metadata_stores_nothing_example :
  Upload.stored (Upload.POST null_metadata (request [report] (Some "null"))) = [] /\
  Upload.response (Upload.POST null_metadata (request [report] (Some "null"))) =
    {| status := 200; body := Upload.Success true 1 0 (Upload.completed 1 0) |}.
Proof.
  exact (null_metadata_stores_nothing null_metadata (request [report] (Some "null"))
           null_metadata_accepted).
Defined.

Lemma stored_row_provenance_example :
  exists file pdfResult,
    In file [report] /\
    parse_file world (request [report] (Some "{}")) file = Return pdfResult /\
    In (PdfParsers.parserUsed pdfResult) PdfParsers.Object_keys /\
    source first_row = file_name file.
Proof.
  destruct (stored_row_provenance world (request [report] (Some "{}")) first_row)
    as (file & pdfResult & H1 & H2 & H3 & H4 & _).
  - vm_compute. left. reflexivity.
  - exists file, pdfResult. auto.
Defined.

Lemma tagged_accepted :
  accepted tagged (request [report] (Some genre_json)) (JObj [("genre", JStr "finance")]).
Proof. repeat split; try reflexivity. discriminate. Defined.

Lemma user_metadata_is_carried_example :
  own "genre" (row_metadata tagged_row) = Some (JStr "finance").
Proof.
  apply (user_metadata_is_carried tagged (request [report] (Some genre_json))
           [("genre", JStr "finance")] tagged_row "genre" tagged_accepted).
  - repeat constructor. intros [].
  - vm_compute. left. reflexivity.
  - cbn. intros H. repeat (destruct H as [H | H]; [discriminate H|]). exact H.
Defined.




Lemma preview_success_means_no_file_failed_example :
  true = true /\
  status (fst (Preview.POST world (request [report] None))) = 200 /\
  Forall (file_passes world (request [report] None)) [report] /\
  snd (Preview.POST world (request [report] None)) = ["report.pdf"] /\
  preview_chunks world (request [report] None) [report] <> [] /\
  report_stats = Preview.chunkStats (preview_chunks world (request [report] None) [report])
                   (parse_times world (request [report] None) [report]) "pdf-parse"
                   (files_metadata_of world (request [report] None) [report]).
Proof.
  apply (preview_success_means_no_file_failed world (request [report] None) true report_stats).
  reflexivity.
Defined.





Lemma three_days_checked :
  Forall (fun row => FeedbackSchema.feedback_type_check row = true) three_days /\
  Forall (fun row => FeedbackSchema.rating_check row = true) three_days.
Proof. split; repeat constructor. Defined.

Lemma feedback_stats_counts_add_up_example :
  FeedbackSchema.total_feedback (FeedbackSchema.feedback_stats three_days) = 4 /\
  FeedbackSchema.helpful_count (FeedbackSchema.feedback_stats three_days)
  + FeedbackSchema.not_helpful_count (FeedbackSchema.feedback_stats three_days)
  + FeedbackSchema.partial_count (FeedbackSchema.feedback_stats three_days)
  + FeedbackSchema.detailed_count (FeedbackSchema.feedback_stats three_days)
  = FeedbackSchema.total_feedback (FeedbackSchema.feedback_stats three_days) /\
  0 <= FeedbackSchema.rated_responses (FeedbackSchema.feedback_stats three_days)
    <= FeedbackSchema.total_feedback (FeedbackSchema.feedback_stats three_days).
Proof.
  exact (feedback_stats_counts_add_up three_days (proj1 three_days_checked)).
Defined.


(** The daily trends of four rows created on three days. *)
Example daily_feedback_trends_of_three_days :
  map (fun t => (FeedbackSchema.feedback_date t, FeedbackSchema.day_total t,
                 FeedbackSchema.day_helpful t, FeedbackSchema.day_avg_rating t))
      (FeedbackSchema.daily_feedback_trends utc_day three_days)
  = [(2, 1, 0, Some (4 # 1)); (1, 1, 0, None); (0, 2, 2, Some (7 # 2))].
Proof. reflexivity. Qed.

End MoreExamples.

(** ** Development mode *)

Lemma try_parse_mock pdf elapsed buffer :
  exists r, PdfParsers.try_parse pdf elapsed "mock" buffer = Return r /\
            PdfParsers.parserUsed r = "mock" /\
            PdfParsers.text r = PdfParsers.mock_text buffer.
Proof. eexists. split; [reflexivity|]. split; reflexivity. Qed.

Lemma try_parse_pdf_parse pdf elapsed buffer r :
  PdfParsers.try_parse pdf elapsed "pdf-parse" buffer = Return r ->
  exists data, pdf buffer = Return data /\ PdfParsers.text r = PdfParsers.data_text data.
Proof.
  change (PdfParsers.try_parse pdf elapsed "pdf-parse" buffer)
    with (PdfParsers.parse pdf elapsed PdfParsers.PDFParseParser buffer).
  cbn [PdfParsers.parse]. destruct (pdf buffer) as [data|]; [|discriminate].
  intros [= <-]. exists data. split; [reflexivity|]. cbn [PdfParsers.text].
  destruct (Z.eqb_spec (strlen (PdfParsers.data_text data)) 0) as [Z0|]; [|reflexivity].
  symmetry. apply strlen_zero, Z0.
Qed.

(** X24.  In development mode (NODE_ENV = 'development') no file fails at
    the parser, in either endpoint and whatever parser the request names:
    either pdf-parse was asked for and returned, and the text is the
    library's; or the text is the mock parser's sample text, which is
    never blank.  So a file that pdf-parse cannot read is chunked, and in
    the upload endpoint stored, as mock content. *)
Theorem parse_file_in_development (w : World) (form : FormData) (file : File) :
  NODE_ENV w = Some "development" ->
  exists pdfResult,
    parse_file w form file = Return pdfResult /\
    ((pdfParser_of form = "pdf-parse" /\
      PdfParsers.parserUsed pdfResult = "pdf-parse" /\
      exists data, pdf w (file_bytes file) = Return data /\
                   PdfParsers.text pdfResult = PdfParsers.data_text data) \/
     (PdfParsers.parserUsed pdfResult = "mock" /\
      PdfParsers.text pdfResult = PdfParsers.mock_text (file_bytes file) /\
      blank (PdfParsers.text pdfResult) = false)).
Proof.
  intros Henv. unfold parse_file, PdfParsers.parsePDF. rewrite Henv.
  cbn [PdfParsers.parser PdfParsers.fallbackToMock].
  change (String.eqb "development" "development") with true. cbn [andb].
  assert (Hmock : forall r,
            PdfParsers.try_parse (pdf w) (elapsed w) "mock" (file_bytes file) = Return r ->
            PdfParsers.parserUsed r = "mock" /\
            PdfParsers.text r = PdfParsers.mock_text (file_bytes file) /\
            blank (PdfParsers.text r) = false).
  { intros r Hr.
    destruct (try_parse_mock (pdf w) (elapsed w) (file_bytes file)) as (r' & Hr' & Hu & Ht).
    rewrite Hr' in Hr. injection Hr as <-. repeat split; try assumption.
    rewrite Ht. unfold PdfParsers.mock_text. cbn [append]. apply blank_cons. reflexivity. }
  destruct (PdfParsers.try_parse (pdf w) (elapsed w) (pdfParser_of form) (file_bytes file))
    as [r|e] eqn:T.
  - exists r. split; [reflexivity|].
    destruct (try_parse_returns _ _ _ _ _ T) as [[Hp | [Hp | []]] Hused].
    + left. rewrite <- Hp in T. rewrite Hused. repeat split; auto.
      exact (try_parse_pdf_parse _ _ _ _ T).
    + right. rewrite <- Hp in T. exact (Hmock r T).
  - destruct (String.eqb_spec (pdfParser_of form) "mock") as [Hm | _].
    + rewrite Hm in T.
      destruct (try_parse_mock (pdf w) (elapsed w) (file_bytes file)) as (r' & Hr' & _).
      congruence.
    + cbn [negb].
      destruct (try_parse_mock (pdf w) (elapsed w) (file_bytes file)) as (r' & Hr' & _).
      exists r'. split; [exact Hr'|]. right. exact (Hmock r' Hr').
Qed.

Section DevelopmentExample.
Import Scenario Scenario2.

Lemma parse_file_in_development_example :
  exists pdfResult,
    parse_file development (request [broken] (Some "{}")) broken = Return pdfResult /\
    PdfParsers.parserUsed pdfResult = "mock" /\
    blank (PdfParsers.text pdfResult) = false.
Proof.
  destruct (parse_file_in_development development (request [broken] (Some "{}")) broken
              eq_refl) as (r & Hr & [(_ & _ & data & Hdata & _) | (Hu & _ & Hb)]).
  - discriminate Hdata.
  - exists r. auto.
Defined.

(** In development a file that pdf-parse rejects is uploaded all the same:
    the ten chunks cut from the mock text are stored under its name. *)
Example broken_file_is_stored_in_development :
  Upload.response (Upload.POST development (request [broken] (Some "{}"))) =
    {| status := 200;
       body := Upload.Success true 1 10
                 "Successfully processed 1 documents with 10 chunks" |} /\
  map source (Upload.stored (Upload.POST development (request [broken] (Some "{}"))))
  = repeat "broken.pdf" 10 /\
  map (fun row => own "parser_used" (row_metadata row))
      (Upload.stored (Upload.POST development (request [broken] (Some "{}"))))
  = repeat (Some (JStr "mock")) 10.
Proof. repeat split; reflexivity. Qed.

End DevelopmentExample.
